(** * MeetingMind OBS plugin: event dispatch, connection and configuration

    A shallow embedding of [obs-plugin/src/meetingmind-plugin.cpp].  The
    plugin's global variables and the objects it talks to (the OBS frontend,
    the socket, the dock widget, the configuration file) are explicit state;
    every C++ function is a state transformer carrying the source's name. *)

From Stdlib Require Import ZArith Lia Ascii.
From stdpp Require Import gmap strings list fin_maps pretty.

Open Scope string_scope.
Open Scope list_scope.
Open Scope nat_scope.

(** ** Compile-time constants *)

Definition SCENE_WELCOME : string := "Meeting - Welcome".
Definition SCENE_PRESENTATION : string := "Meeting - Presentation".
Definition SCENE_DISCUSSION : string := "Meeting - Discussion".
Definition SCENE_SCREEN_SHARE : string := "Meeting - Screen Share".
Definition SCENE_BREAK : string := "Meeting - Break".
Definition SCENE_ENDING : string := "Meeting - Ending".

Definition AUDIO_MICROPHONE : string := "Microphone".
Definition AUDIO_DESKTOP : string := "Desktop Audio".
Definition AUDIO_MEETING : string := "Meeting Audio".

(** ** Plugin configuration structure

    [char *] fields are nullable C strings ([None] is the null pointer);
    [int] fields are integers, kept in the 32-bit range by [int_range]. *)

Record meetingmind_config := {
  server_url : option string;
  server_port : Z;
  api_key : option string;
  auto_scene_switching : bool;
  auto_recording : bool;
  audio_management : bool;
  meeting_notifications : bool;
  connection_timeout : Z;
  meeting_id : option string;
  connected : bool
}.


(** [(int)] applied to an [int64_t]: wrap-around to 32 bits, two's complement. *)
Definition to_int (z : Z) : Z := ((z + 2 ^ 31) mod 2 ^ 32 - 2 ^ 31)%Z.

(** ** The OBS frontend, as seen by the plugin *)

Inductive log_level := LOG_WARNING | LOG_INFO.

Inductive obs_call :=
| obs_get_source_by_name_call (name : string)
| obs_frontend_set_current_scene_call (scene : string)
| obs_source_set_muted_call (source : string) (muted : bool)
| obs_source_release_call (source : string)
| obs_frontend_recording_active_call
| obs_frontend_recording_start_call
| obs_frontend_recording_stop_call.

(** The plugin-level actions of the dispatch table: one per helper the
    dispatcher can call. *)
Inductive host_action :=
| SwitchToScene (scene_name : string)
| StartRecording
| StopRecording
| SetSourceMute (source_name : string) (muted : bool).

(** Modelled from the spec: the host control surface (scene lookup by name and
    scene switch, source lookup by name with mute toggle, recording
    start/stop/is-active) belongs to the host application, not to the plugin.
    A source handle is the name it was looked up by, the log is what [blog]
    received, and [obs_calls] records every frontend call in order. *)
Record obs_state := {
  obs_sources : gset string;          (* names that resolve to a scene or source *)
  obs_current_scene : option string;
  obs_muted : gmap string bool;
  obs_recording : bool;
  obs_log : list (log_level * string);
  obs_calls : list obs_call;
  attempted : list host_action        (* ghost: helpers entered, in order *)
}.

#[global] Instance log_level_eq_dec : EqDecision log_level.
Proof. solve_decision. Defined.
#[global] Instance obs_call_eq_dec : EqDecision obs_call.
Proof. solve_decision. Defined.
#[global] Instance host_action_eq_dec : EqDecision host_action.
Proof. solve_decision. Defined.

(** A small state monad over the host. *)
Definition obs (A : Type) : Type := obs_state → A * obs_state.

Definition obs_ret {A} (a : A) : obs A := λ h, (a, h).
Definition obs_bind {A B} (m : obs A) (k : A → obs B) : obs B :=
  λ h, let (a, h') := m h in k a h'.
Definition obs_exec {A} (m : obs A) (h : obs_state) : obs_state := snd (m h).
Definition obs_when (b : bool) (m : obs unit) : obs unit :=
  if b then m else obs_ret tt.

Declare Scope obs_scope.
Delimit Scope obs_scope with obs.
Notation "x ← y ; z" := (obs_bind y (λ x, z)) (only parsing) : obs_scope.
Notation "x ;; z" := (obs_bind x (λ _, z)) (only parsing) : obs_scope.
Open Scope obs_scope.

Definition call (c : obs_call) : obs unit := λ h,
  (tt, {| obs_sources := obs_sources h; obs_current_scene := obs_current_scene h;
          obs_muted := obs_muted h; obs_recording := obs_recording h;
          obs_log := obs_log h; obs_calls := obs_calls h ++ [c];
          attempted := attempted h |}).

Definition attempt (a : host_action) : obs unit := λ h,
  (tt, {| obs_sources := obs_sources h; obs_current_scene := obs_current_scene h;
          obs_muted := obs_muted h; obs_recording := obs_recording h;
          obs_log := obs_log h; obs_calls := obs_calls h;
          attempted := attempted h ++ [a] |}).

Definition blog (level : log_level) (msg : string) : obs unit := λ h,
  (tt, {| obs_sources := obs_sources h; obs_current_scene := obs_current_scene h;
          obs_muted := obs_muted h; obs_recording := obs_recording h;
          obs_log := obs_log h ++ [(level, msg)]; obs_calls := obs_calls h;
          attempted := attempted h |}).

Definition obs_get_source_by_name (name : string) : obs (option string) :=
  call (obs_get_source_by_name_call name) ;;
  λ h, (if decide (name ∈ obs_sources h) then Some name else None, h).

Definition obs_frontend_set_current_scene (scene : string) : obs unit :=
  call (obs_frontend_set_current_scene_call scene) ;;
  λ h, (tt, {| obs_sources := obs_sources h; obs_current_scene := Some scene;
               obs_muted := obs_muted h; obs_recording := obs_recording h;
               obs_log := obs_log h; obs_calls := obs_calls h;
               attempted := attempted h |}).

Definition obs_source_set_muted (source : string) (muted : bool) : obs unit :=
  call (obs_source_set_muted_call source muted) ;;
  λ h, (tt, {| obs_sources := obs_sources h; obs_current_scene := obs_current_scene h;
               obs_muted := <[source := muted]> (obs_muted h);
               obs_recording := obs_recording h;
               obs_log := obs_log h; obs_calls := obs_calls h;
               attempted := attempted h |}).

Definition obs_source_release (source : string) : obs unit :=
  call (obs_source_release_call source).

Definition obs_frontend_recording_active : obs bool :=
  call obs_frontend_recording_active_call ;;
  λ h, (obs_recording h, h).

Definition set_recording (b : bool) : obs unit := λ h,
  (tt, {| obs_sources := obs_sources h; obs_current_scene := obs_current_scene h;
          obs_muted := obs_muted h; obs_recording := b;
          obs_log := obs_log h; obs_calls := obs_calls h;
          attempted := attempted h |}).

(** Modelled from the spec: starting and stopping take effect at once, the
    host reports a recording as active from the start call to the stop call. *)
Definition obs_frontend_recording_start : obs unit :=
  call obs_frontend_recording_start_call ;; set_recording true.

Definition obs_frontend_recording_stop : obs unit :=
  call obs_frontend_recording_stop_call ;; set_recording false.

(** ** Host actions (lines 605-656) *)

Definition switch_to_scene (scene_name : string) : obs unit :=
  attempt (SwitchToScene scene_name) ;;
  scene ← obs_get_source_by_name scene_name;
  match scene with
  | Some scene =>
      obs_frontend_set_current_scene scene ;;
      obs_source_release scene ;;
      blog LOG_INFO ("MeetingMind: Switched to scene '" +:+ scene_name +:+ "'")
  | None =>
      blog LOG_WARNING ("MeetingMind: Scene '" +:+ scene_name +:+ "' not found")
  end.

Definition set_source_mute (source_name : string) (muted : bool) : obs unit :=
  attempt (SetSourceMute source_name muted) ;;
  source ← obs_get_source_by_name source_name;
  match source with
  | Some source =>
      obs_source_set_muted source muted ;;
      obs_source_release source ;;
      blog LOG_INFO ("MeetingMind: Set source '" +:+ source_name +:+ "' mute to "
                     +:+ (if muted then "muted" else "unmuted"))
  | None => obs_ret tt
  end.

Definition start_recording : obs unit :=
  attempt StartRecording ;;
  active ← obs_frontend_recording_active;
  if negb active then
    obs_frontend_recording_start ;;
    blog LOG_INFO "MeetingMind: Started recording"
  else obs_ret tt.

Definition stop_recording : obs unit :=
  attempt StopRecording ;;
  active ← obs_frontend_recording_active;
  if active then
    obs_frontend_recording_stop ;;
    blog LOG_INFO "MeetingMind: Stopped recording"
  else obs_ret tt.

(** ** JSON values, as far as the plugin inspects them *)

#[warnings="-register-all"]
Inductive QJsonValue :=
| JNull
| JBool (b : bool)
| JDouble (literal : string)
| JString (s : string)
| JArray (items : list QJsonValue)
| JObject (members : gmap string QJsonValue).

Abbreviation QJsonObject := (gmap string QJsonValue).

Inductive QJsonDocument :=
| JDocNull                                  (* what a failed parse returns *)
| JDocArray (items : list QJsonValue)
| JDocObject (members : QJsonObject).

(** [QJsonDocument::object()]: the empty object unless the document holds one. *)
Definition object (doc : QJsonDocument) : QJsonObject :=
  match doc with JDocObject o => o | _ => ∅ end.

(** [obj[key]] on a non-const object: a missing key reads as [Null]. *)
Definition value (obj : QJsonObject) (key : string) : QJsonValue :=
  default JNull (obj !! key).

Definition toString (v : QJsonValue) : string :=
  match v with JString s => s | _ => "" end.

Definition toObject (v : QJsonValue) : QJsonObject :=
  match v with JObject o => o | _ => ∅ end.

(** ** The event dispatcher (lines 546-603)

    [plugin_config] is the global pointer, read only here. *)

Definition handle_meeting_event (plugin_config : option meetingmind_config)
    (event_type : string) (data : QJsonObject) : obs unit :=
  match plugin_config with
  | None => obs_ret tt
  | Some plugin_config =>
    if decide (event_type = "meeting_started") then
      obs_when (auto_scene_switching plugin_config) (switch_to_scene SCENE_WELCOME) ;;
      obs_when (auto_recording plugin_config) start_recording ;;
      obs_when (audio_management plugin_config) (set_source_mute AUDIO_MICROPHONE false)
    else if decide (event_type = "meeting_ended") then
      obs_when (auto_scene_switching plugin_config) (switch_to_scene SCENE_ENDING) ;;
      obs_when (auto_recording plugin_config) stop_recording
    else if decide (event_type = "presentation_started") then
      obs_when (auto_scene_switching plugin_config) (switch_to_scene SCENE_PRESENTATION)
    else if decide (event_type = "screen_share_started") then
      obs_when (auto_scene_switching plugin_config) (switch_to_scene SCENE_SCREEN_SHARE) ;;
      obs_when (audio_management plugin_config) (set_source_mute AUDIO_DESKTOP false)
    else if decide (event_type = "screen_share_ended") then
      obs_when (auto_scene_switching plugin_config) (switch_to_scene SCENE_DISCUSSION)
    else if decide (event_type = "break_started") then
      obs_when (auto_scene_switching plugin_config) (switch_to_scene SCENE_BREAK) ;;
      obs_when (audio_management plugin_config) (set_source_mute AUDIO_MICROPHONE true)
    else if decide (event_type = "break_ended") then
      obs_when (auto_scene_switching plugin_config) (switch_to_scene SCENE_DISCUSSION) ;;
      obs_when (audio_management plugin_config) (set_source_mute AUDIO_MICROPHONE false)
    else obs_ret tt
  end.

Close Scope obs_scope.

(** ** The dispatch table of the specification (section 4.1)

    Written from the table, row by row, to be compared with the code: the
    scene-switching column, then the recording column, then the audio column. *)

Inductive event_kind :=
| meeting_started | meeting_ended | presentation_started
| screen_share_started | screen_share_ended | break_started | break_ended.

Definition event_name (e : event_kind) : string :=
  match e with
  | meeting_started => "meeting_started"
  | meeting_ended => "meeting_ended"
  | presentation_started => "presentation_started"
  | screen_share_started => "screen_share_started"
  | screen_share_ended => "screen_share_ended"
  | break_started => "break_started"
  | break_ended => "break_ended"
  end.

Definition event_names : list string :=
  event_name <$> [meeting_started; meeting_ended; presentation_started;
                  screen_share_started; screen_share_ended; break_started; break_ended].

Definition table_scene (e : event_kind) : list host_action :=
  match e with
  | meeting_started => [SwitchToScene SCENE_WELCOME]
  | meeting_ended => [SwitchToScene SCENE_ENDING]
  | presentation_started => [SwitchToScene SCENE_PRESENTATION]
  | screen_share_started => [SwitchToScene SCENE_SCREEN_SHARE]
  | screen_share_ended => [SwitchToScene SCENE_DISCUSSION]
  | break_started => [SwitchToScene SCENE_BREAK]
  | break_ended => [SwitchToScene SCENE_DISCUSSION]
  end.

Definition table_recording (e : event_kind) : list host_action :=
  match e with
  | meeting_started => [StartRecording]
  | meeting_ended => [StopRecording]
  | _ => []
  end.

Definition table_audio (e : event_kind) : list host_action :=
  match e with
  | meeting_started => [SetSourceMute AUDIO_MICROPHONE false]
  | screen_share_started => [SetSourceMute AUDIO_DESKTOP false]
  | break_started => [SetSourceMute AUDIO_MICROPHONE true]
  | break_ended => [SetSourceMute AUDIO_MICROPHONE false]
  | _ => []
  end.

Definition dispatch_table (scene_switching recording audio : bool)
    (e : event_kind) : list host_action :=
  (if scene_switching then table_scene e else []) ++
  (if recording then table_recording e else []) ++
  (if audio then table_audio e else []).

(** Whether the name an action looks up resolves in the host. *)
Definition lookup_fails (a : host_action) (h : obs_state) : bool :=
  match a with
  | SwitchToScene n | SetSourceMute n _ => bool_decide (n ∉ obs_sources h)
  | _ => false
  end.

Definition count_calls (c : obs_call) (h : obs_state) : nat :=
  length (filter (λ c', c' = c) (obs_calls h)).

(** *** Running a list of actions

    The helper each action of the table stands for, and the actions of a list
    performed one after the other, whatever the earlier ones did. *)

Definition perform (a : host_action) : obs unit :=
  match a with
  | SwitchToScene scene_name => switch_to_scene scene_name
  | StartRecording => start_recording
  | StopRecording => stop_recording
  | SetSourceMute source_name muted => set_source_mute source_name muted
  end.

Definition perform_all (actions : list host_action) (h : obs_state) : obs_state :=
  foldl (λ h a, obs_exec (perform a) h) h actions.

(** The table under the toggles of a configuration. *)
Definition enabled_actions (cfg : meetingmind_config) (e : event_kind) : list host_action :=
  dispatch_table (auto_scene_switching cfg) (auto_recording cfg) (audio_management cfg) e.

(** ** External interfaces

    The configuration-file library of the host and the UI toolkit are not part
    of the sources; the plugin is written against these interfaces. *)

Inductive config_open_type := CONFIG_OPEN_EXISTING | CONFIG_OPEN_ALWAYS.
Inductive config_result := CONFIG_SUCCESS | CONFIG_FILENOTFOUND | CONFIG_ERROR.

#[global] Instance config_result_eq_dec : EqDecision config_result.
Proof. solve_decision. Defined.

(** [config_t] is an open configuration handle, [disk] the persisted files. *)
Class ConfigFile (config_t disk : Type) := {
  obs_module_config_path : string → string;
  config_create : string → config_t;
  config_file : config_t → string;
  config_open : config_t → config_open_type → disk → config_result * config_t;
  config_get_string : config_t → string → string → option string;
  config_get_int : config_t → string → string → Z;
  config_get_bool : config_t → string → string → bool;
  config_set_string : config_t → string → string → option string → config_t;
  config_set_int : config_t → string → string → Z → config_t;
  config_set_bool : config_t → string → string → bool → config_t;
  config_save : config_t → disk → disk
}.





(** What the toolkit does with strings, JSON text and rich-text blocks. *)
Class QtToolkit := {
  fromJson : string → QJsonDocument;
  toJson : QJsonDocument → string;
  arg : string → string → string;             (* QString::arg(a) *)
  arg2 : string → string → string → string;   (* QString::arg(a1, a2) *)
  number : Z → string;                        (* the decimal text arg(int) inserts *)
  text_blocks : string → list string;         (* blocks that appending a text creates *)
  text_lines : string → list string           (* lines the view breaks a block into *)
}.

(** [bstrdup(s.toUtf8().constData())]: the bytes up to the first NUL. *)
Fixpoint c_str (s : string) : string :=
  match s with
  | EmptyString => EmptyString
  | String a rest => if Ascii.eqb a Ascii.zero then EmptyString else String a (c_str rest)
  end.

(** ** The text document behind the activity log

    The document is its list of blocks, one per paragraph; the view, which
    wraps at its width, breaks every block into one or more lines
    ([text_lines]).  The cursor positions the plugin reaches are starts of
    lines: a block, and a line within that block. *)

Definition blockCount (doc : list string) : nat := Nat.max 1 (length doc).

Definition lineCount `{QtToolkit} (block : string) : nat :=
  Nat.max 1 (length (text_lines block)).

Record QTextCursor := { cursor_anchor : nat * nat; cursor_position : nat * nat }.

Inductive MoveOperation := Start | Down.
Inductive MoveMode := MoveAnchor | KeepAnchor.

(** [QTextCursor::Down], once, from the start of a line: to the next line of
    the block if it has one, else to the first line of the next block; on the
    last line of the document the cursor stays. *)
Definition line_down `{QtToolkit} (doc : list string) (p : nat * nat) : nat * nat :=
  if decide (S p.2 < lineCount (default "" (doc !! p.1))) then (p.1, S p.2)
  else if decide (S p.1 < blockCount doc) then (S p.1, 0)
  else p.

Definition movePosition `{QtToolkit} (doc : list string) (op : MoveOperation)
    (mode : MoveMode) (n : nat) (c : QTextCursor) : QTextCursor :=
  let position :=
    match op with
    | Start => (0, 0)
    | Down => Nat.iter n (line_down doc) (cursor_position c)
    end in
  {| cursor_anchor := match mode with MoveAnchor => position | KeepAnchor => cursor_anchor c end;
     cursor_position := position |}.

Fixpoint take_chars (n : nat) (s : string) : string :=
  match n, s with
  | S n, String a rest => String a (take_chars n rest)
  | _, _ => EmptyString
  end.

Fixpoint drop_chars (n : nat) (s : string) : string :=
  match n, s with
  | S n, String _ rest => drop_chars n rest
  | _, _ => s
  end.

(** How many characters of a block come before the start of its line [l]. *)
Definition chars_before `{QtToolkit} (l : nat) (block : string) : nat :=
  sum_list (String.length <$> take l (text_lines block)).

Definition position_leb (a p : nat * nat) : bool :=
  bool_decide (a.1 < p.1) || (bool_decide (a.1 = p.1) && bool_decide (a.2 ≤ p.2)).

(** The text between the two ends of the selection goes; what is left of
    the first and of the last selected block becomes one block. *)
Definition removeSelectedText `{QtToolkit} (c : QTextCursor) (doc : list string) :
    list string :=
  let (a, p) :=
    if position_leb (cursor_anchor c) (cursor_position c)
    then (cursor_anchor c, cursor_position c)
    else (cursor_position c, cursor_anchor c) in
  let first := default "" (doc !! a.1) in
  let last := default "" (doc !! p.1) in
  take a.1 doc ++
  [take_chars (chars_before a.2 first) first +:+ drop_chars (chars_before p.2 last) last] ++
  drop (S p.1) doc.

(** ** Sockets and requests *)

Record QNetworkRequest := {
  request_url : string;
  raw_headers : list (string * string)
}.

Record QWebSocket := {
  ws_request : option QNetworkRequest;
  ws_live : bool                     (* opened and not closed since *)
}.

Inductive socket_op :=
| ws_new (id : nat)
| ws_open (id : nat) (request : QNetworkRequest)
| ws_close (id : nat)
| ws_delete (id : nat)
| ws_sendTextMessage (id : nat) (message : string).

Record network := {
  websocket : option nat;                 (* the global pointer; objects are named by allocation number *)
  sockets : gmap nat QWebSocket;          (* allocated socket objects *)
  next_socket : nat;
  socket_log : list socket_op;            (* every socket operation, in order *)
  network_manager : bool;                 (* allocated or not *)
  http_get : list QNetworkRequest         (* health checks issued *)
}.

(** ** The dock widget *)

Record MeetingMindWidget := {
  server_url_edit : string;
  server_port_spin : Z;
  api_key_edit : string;
  meeting_id_edit : string;
  auto_scene_switching_check : bool;
  auto_recording_check : bool;
  audio_management_check : bool;
  meeting_notifications_check : bool;
  connect_button : bool;                       (* enabled *)
  disconnect_button : bool;                    (* enabled *)
  connection_status_label : string * string;   (* text, style sheet *)
  meeting_status_label : string;
  recording_status_label : string;
  log_text : list string
}.

Definition set_log_text (doc : list string) (ui : MeetingMindWidget) : MeetingMindWidget :=
  {| server_url_edit := server_url_edit ui; server_port_spin := server_port_spin ui;
     api_key_edit := api_key_edit ui; meeting_id_edit := meeting_id_edit ui;
     auto_scene_switching_check := auto_scene_switching_check ui;
     auto_recording_check := auto_recording_check ui;
     audio_management_check := audio_management_check ui;
     meeting_notifications_check := meeting_notifications_check ui;
     connect_button := connect_button ui; disconnect_button := disconnect_button ui;
     connection_status_label := connection_status_label ui;
     meeting_status_label := meeting_status_label ui;
     recording_status_label := recording_status_label ui;
     log_text := doc |}.

Definition set_connection_status (label : string * string) (connect disconnect : bool)
    (ui : MeetingMindWidget) : MeetingMindWidget :=
  {| server_url_edit := server_url_edit ui; server_port_spin := server_port_spin ui;
     api_key_edit := api_key_edit ui; meeting_id_edit := meeting_id_edit ui;
     auto_scene_switching_check := auto_scene_switching_check ui;
     auto_recording_check := auto_recording_check ui;
     audio_management_check := audio_management_check ui;
     meeting_notifications_check := meeting_notifications_check ui;
     connect_button := connect; disconnect_button := disconnect;
     connection_status_label := label;
     meeting_status_label := meeting_status_label ui;
     recording_status_label := recording_status_label ui;
     log_text := log_text ui |}.

Definition set_status_labels (meeting recording : string)
    (ui : MeetingMindWidget) : MeetingMindWidget :=
  {| server_url_edit := server_url_edit ui; server_port_spin := server_port_spin ui;
     api_key_edit := api_key_edit ui; meeting_id_edit := meeting_id_edit ui;
     auto_scene_switching_check := auto_scene_switching_check ui;
     auto_recording_check := auto_recording_check ui;
     audio_management_check := audio_management_check ui;
     meeting_notifications_check := meeting_notifications_check ui;
     connect_button := connect_button ui; disconnect_button := disconnect_button ui;
     connection_status_label := connection_status_label ui;
     meeting_status_label := meeting;
     recording_status_label := recording;
     log_text := log_text ui |}.

(** What the user can change in the settings form. *)
Inductive form_edit :=
| edit_server_url (text : string)
| edit_server_port (value : Z)
| edit_api_key (text : string)
| edit_meeting_id (text : string)
| toggle_auto_scene_switching (checked : bool)
| toggle_auto_recording (checked : bool)
| toggle_audio_management (checked : bool)
| toggle_meeting_notifications (checked : bool).

Definition apply_edit (e : form_edit) (ui : MeetingMindWidget) : MeetingMindWidget :=
  {| server_url_edit := match e with edit_server_url t => t | _ => server_url_edit ui end;
     server_port_spin := match e with edit_server_port v => v | _ => server_port_spin ui end;
     api_key_edit := match e with edit_api_key t => t | _ => api_key_edit ui end;
     meeting_id_edit := match e with edit_meeting_id t => t | _ => meeting_id_edit ui end;
     auto_scene_switching_check :=
       match e with toggle_auto_scene_switching b => b | _ => auto_scene_switching_check ui end;
     auto_recording_check :=
       match e with toggle_auto_recording b => b | _ => auto_recording_check ui end;
     audio_management_check :=
       match e with toggle_audio_management b => b | _ => audio_management_check ui end;
     meeting_notifications_check :=
       match e with toggle_meeting_notifications b => b | _ => meeting_notifications_check ui end;
     connect_button := connect_button ui; disconnect_button := disconnect_button ui;
     connection_status_label := connection_status_label ui;
     meeting_status_label := meeting_status_label ui;
     recording_status_label := recording_status_label ui;
     log_text := log_text ui |}.

(** ** The plugin: globals, widget, host and files in one state *)

Definition socket_close (p : nat) (n : network) : network :=
  {| websocket := websocket n;
     sockets := alter (λ s, {| ws_request := ws_request s; ws_live := false |}) p (sockets n);
     next_socket := next_socket n;
     socket_log := socket_log n ++ [ws_close p];
     network_manager := network_manager n; http_get := http_get n |}.

Definition socket_delete (p : nat) (n : network) : network :=
  {| websocket := websocket n;
     sockets := delete p (sockets n);
     next_socket := next_socket n;
     socket_log := socket_log n ++ [ws_delete p];
     network_manager := network_manager n; http_get := http_get n |}.

(** [websocket = new QWebSocket()] *)
Definition socket_new (n : network) : network :=
  let p := next_socket n in
  {| websocket := Some p;
     sockets := <[p := {| ws_request := None; ws_live := false |}]> (sockets n);
     next_socket := S p;
     socket_log := socket_log n ++ [ws_new p];
     network_manager := network_manager n; http_get := http_get n |}.

Definition socket_open (p : nat) (request : QNetworkRequest) (n : network) : network :=
  {| websocket := websocket n;
     sockets := alter (λ _, {| ws_request := Some request; ws_live := true |}) p (sockets n);
     next_socket := next_socket n;
     socket_log := socket_log n ++ [ws_open p request];
     network_manager := network_manager n; http_get := http_get n |}.

Definition socket_sendTextMessage (p : nat) (message : string) (n : network) : network :=
  {| websocket := websocket n; sockets := sockets n; next_socket := next_socket n;
     socket_log := socket_log n ++ [ws_sendTextMessage p message];
     network_manager := network_manager n; http_get := http_get n |}.

Definition set_websocket (p : option nat) (n : network) : network :=
  {| websocket := p; sockets := sockets n; next_socket := next_socket n;
     socket_log := socket_log n;
     network_manager := network_manager n; http_get := http_get n |}.

Definition network_get (request : QNetworkRequest) (n : network) : network :=
  {| websocket := websocket n; sockets := sockets n; next_socket := next_socket n;
     socket_log := socket_log n;
     network_manager := true; http_get := http_get n ++ [request] |}.

(** Sockets that were opened and neither closed nor deleted since. *)
Definition live_connections (n : network) : gmap nat QWebSocket :=
  filter (λ ps, ws_live ps.2 = true) (sockets n).

(** The text messages sent so far, over any socket. *)
Definition sent_messages (n : network) : list string :=
  omap (λ op, match op with ws_sendTextMessage _ m => Some m | _ => None end)
       (socket_log n).

Section Plugin.
Context {config_t disk : Type} `{!ConfigFile config_t disk} `{!QtToolkit}.

Record World := {
  plugin_config : option meetingmind_config;   (* the global, null before load_config *)
  net : network;
  widget : MeetingMindWidget;
  host : obs_state;
  files : disk;
  now : string                                  (* the clock, as hh:mm:ss *)
}.

Definition set_plugin_config (c : option meetingmind_config) (w : World) : World :=
  {| plugin_config := c; net := net w; widget := widget w; host := host w;
     files := files w; now := now w |}.
Definition set_net (n : network) (w : World) : World :=
  {| plugin_config := plugin_config w; net := n; widget := widget w; host := host w;
     files := files w; now := now w |}.
Definition set_widget (ui : MeetingMindWidget) (w : World) : World :=
  {| plugin_config := plugin_config w; net := net w; widget := ui; host := host w;
     files := files w; now := now w |}.
Definition set_host (h : obs_state) (w : World) : World :=
  {| plugin_config := plugin_config w; net := net w; widget := widget w; host := h;
     files := files w; now := now w |}.
Definition set_files (d : disk) (w : World) : World :=
  {| plugin_config := plugin_config w; net := net w; widget := widget w; host := host w;
     files := d; now := now w |}.
Definition set_now (t : string) (w : World) : World :=
  {| plugin_config := plugin_config w; net := net w; widget := widget w; host := host w;
     files := files w; now := t |}.

Definition set_connected (b : bool) (c : meetingmind_config) : meetingmind_config :=
  {| server_url := server_url c; server_port := server_port c; api_key := api_key c;
     auto_scene_switching := auto_scene_switching c; auto_recording := auto_recording c;
     audio_management := audio_management c;
     meeting_notifications := meeting_notifications c;
     connection_timeout := connection_timeout c; meeting_id := meeting_id c;
     connected := b |}.

(** [plugin_config && plugin_config->connected] *)
Definition is_connected (w : World) : bool :=
  match plugin_config w with Some c => connected c | None => false end.

(** *** Activity log (lines 427-447) *)

Definition log_message (message : string) (w : World) : World :=
  let timestamp := now w in
  let log_entry := arg2 "[%1] %2" timestamp message in
  (* log_text->append(log_entry) *)
  let doc := log_text (widget w) ++ text_blocks log_entry in
  (* Keep only last 100 lines *)
  let doc :=
    if decide (100 < blockCount doc) then
      let cursor := {| cursor_anchor := (0, 0); cursor_position := (0, 0) |} in
      let cursor := movePosition doc Start MoveAnchor 1 cursor in
      let cursor := movePosition doc Down KeepAnchor (blockCount doc - 100) cursor in
      removeSelectedText cursor doc
    else doc in
  (* scrolling to the bottom moves the view only *)
  set_widget (set_log_text doc (widget w)) w.

(** *** Status display (lines 398-425) *)

Definition update_connection_status (w : World) : World :=
  if is_connected w then
    set_widget (set_connection_status ("Connected", "color: green;") false true (widget w)) w
  else
    set_widget (set_connection_status ("Disconnected", "color: red;") true false (widget w)) w.

Definition on_status_update (w : World) : World :=
  let (recording, h) := obs_frontend_recording_active (host w) in
  let w := set_host h w in
  set_widget (set_status_labels
                (if is_connected w then "Connected to meeting" else "No active meeting")
                (if recording then "Recording" else "Not recording")
                (widget w)) w.

(** *** Configuration (lines 451-513) *)

Definition load_config (w : World) : World :=
  (* bzalloc: a zeroed structure *)
  let old := default {| server_url := None; server_port := 0; api_key := None;
                        auto_scene_switching := false; auto_recording := false;
                        audio_management := false; meeting_notifications := false;
                        connection_timeout := 0; meeting_id := None;
                        connected := false |} (plugin_config w) in
  let config_path := obs_module_config_path "meetingmind.ini" in
  let config := config_create config_path in
  let (result, config) := config_open config CONFIG_OPEN_EXISTING (files w) in
  let loaded :=
    if decide (result = CONFIG_SUCCESS) then
      {| server_url := config_get_string config "connection" "server_url";
         server_port := to_int (config_get_int config "connection" "server_port");
         api_key := config_get_string config "connection" "api_key";
         meeting_id := config_get_string config "connection" "meeting_id";
         auto_scene_switching := config_get_bool config "features" "auto_scene_switching";
         auto_recording := config_get_bool config "features" "auto_recording";
         audio_management := config_get_bool config "features" "audio_management";
         meeting_notifications := config_get_bool config "features" "meeting_notifications";
         connection_timeout := to_int (config_get_int config "advanced" "connection_timeout");
         connected := connected old |}
    else
      (* Set defaults *)
      {| server_url := Some "localhost"; server_port := 8080;
         api_key := Some ""; meeting_id := Some "";
         auto_scene_switching := true; auto_recording := true;
         audio_management := true; meeting_notifications := true;
         connection_timeout := 10;
         connected := connected old |} in
  set_plugin_config (Some (set_connected false loaded)) w.

Definition save_config (w : World) : World :=
  match plugin_config w with
  | None => w
  | Some plugin_config =>
    let config_path := obs_module_config_path "meetingmind.ini" in
    let config := config_create config_path in
    let config := config_set_string config "connection" "server_url" (server_url plugin_config) in
    let config := config_set_int config "connection" "server_port" (server_port plugin_config) in
    let config := config_set_string config "connection" "api_key" (api_key plugin_config) in
    let config := config_set_string config "connection" "meeting_id" (meeting_id plugin_config) in
    let config := config_set_bool config "features" "auto_scene_switching"
                    (auto_scene_switching plugin_config) in
    let config := config_set_bool config "features" "auto_recording"
                    (auto_recording plugin_config) in
    let config := config_set_bool config "features" "audio_management"
                    (audio_management plugin_config) in
    let config := config_set_bool config "features" "meeting_notifications"
                    (meeting_notifications plugin_config) in
    let config := config_set_int config "advanced" "connection_timeout"
                    (connection_timeout plugin_config) in
    set_files (config_save config (files w)) w
  end.

(** *** Form changes (lines 291-313) *)

Definition on_config_changed (w : World) : World :=
  match plugin_config w with
  | None => w
  | Some c =>
    let ui := widget w in
    save_config (set_plugin_config (Some
      {| server_url := Some (c_str (server_url_edit ui));
         server_port := server_port_spin ui;
         api_key := Some (c_str (api_key_edit ui));
         meeting_id := Some (c_str (meeting_id_edit ui));
         auto_scene_switching := auto_scene_switching_check ui;
         auto_recording := auto_recording_check ui;
         audio_management := audio_management_check ui;
         meeting_notifications := meeting_notifications_check ui;
         connection_timeout := connection_timeout c;
         connected := connected c |}) w)
  end.

(** *** Connection (lines 515-544) *)

Definition connect_to_server (w : World) : World :=
  match plugin_config w with
  | None => w
  | Some plugin_config =>
    let n := net w in
    let n :=
      match websocket n with
      | Some p => socket_delete p (socket_close p n)
      | None => n
      end in
    let url := arg (arg "ws://%1:%2/ws" (default "" (server_url plugin_config)))
                   (number (server_port plugin_config)) in
    let n := socket_new n in
    (* Set headers *)
    let headers :=
      match api_key plugin_config with
      | Some key =>
          if decide (0 < String.length key)
          then [("Authorization", arg "Bearer %1" key)] else []
      | None => []
      end in
    let request := {| request_url := url; raw_headers := headers |} in
    match websocket n with
    | Some p => set_net (socket_open p request n) w
    | None => set_net n w
    end
  end.

Definition disconnect_from_server (w : World) : World :=
  match websocket (net w) with
  | Some p => set_net (socket_close p (net w)) w
  | None => w
  end.

Definition on_connect_clicked (w : World) : World := connect_to_server w.
Definition on_disconnect_clicked (w : World) : World := disconnect_from_server w.

(** *** Health check (lines 315-351) *)

Definition on_test_connection_clicked (w : World) : World :=
  let w := log_message "Testing connection to MeetingMind server..." w in
  let ui := widget w in
  let url := arg (arg "http://%1:%2/api/health" (server_url_edit ui))
                 (number (server_port_spin ui)) in
  let headers :=
    ("Content-Type", "application/json") ::
    (if decide (api_key_edit ui = "") then []
     else [("Authorization", arg "Bearer %1" (api_key_edit ui))]) in
  set_net (network_get {| request_url := url; raw_headers := headers |} (net w)) w.

(** The handler attached to the reply: [error] is the reply's error string,
    if any, [body] what [readAll] returns. *)
Definition on_reply_finished (error : option string) (body : string) (w : World) : World :=
  match error with
  | None =>
      let doc := fromJson body in
      let obj := object doc in
      if decide (toString (value obj "status") = "healthy")
      then log_message "✓ Connection test successful!" w
      else log_message "⚠ Server responded but reported unhealthy status" w
  | Some errorString =>
      log_message (arg "✗ Connection test failed: %1" errorString) w
  end.

(** *** Socket callbacks (lines 353-396)

    [None] is the dereference of a null or dangling [websocket]. *)

Definition on_websocket_connected (w : World) : option World :=
  let w :=
    match plugin_config w with
    | Some c => set_plugin_config (Some (set_connected true c)) w
    | None => w
    end in
  let w := log_message "✓ Connected to MeetingMind WebSocket" w in
  let w := update_connection_status w in
  (* Subscribe to meeting events *)
  if decide (meeting_id_edit (widget w) = "") then Some w
  else
    let subscribe_msg : QJsonObject :=
      <["meeting_id" := JString (meeting_id_edit (widget w))]>
        (<["type" := JString "subscribe"]> ∅) in
    let doc := JDocObject subscribe_msg in
    match websocket (net w) with
    | Some p =>
        if decide (is_Some (sockets (net w) !! p)) then
          let w := set_net (socket_sendTextMessage p (toJson doc) (net w)) w in
          Some (log_message (arg "Subscribed to meeting: %1" (meeting_id_edit (widget w))) w)
        else None
    | None => None
    end.

Definition on_websocket_disconnected (w : World) : World :=
  let w :=
    match plugin_config w with
    | Some c => set_plugin_config (Some (set_connected false c)) w
    | None => w
    end in
  let w := log_message "✗ Disconnected from MeetingMind WebSocket" w in
  update_connection_status w.

Definition on_websocket_message (message : string) (w : World) : World :=
  let doc := fromJson message in
  let obj := object doc in
  let event_type := toString (value obj "type") in
  let event_data := toObject (value obj "data") in
  let w := log_message (arg "Received event: %1" event_type) w in
  set_host (obs_exec (handle_meeting_event (plugin_config w) event_type event_data) (host w)) w.

(** *** Everything that can happen while the dock exists *)

Inductive plugin_event :=
| config_loaded                               (* load_config *)
| form_edited (e : form_edit)                 (* a field changes and signals it *)
| connect_clicked
| disconnect_clicked
| test_connection_clicked
| reply_finished (error : option string) (body : string)
| websocket_connected
| websocket_disconnected
| websocket_message (message : string)
| status_timeout
| clock_tick (t : string).

Definition step (e : plugin_event) (w : World) : option World :=
  match e with
  | config_loaded => Some (load_config w)
  | form_edited e => Some (on_config_changed (set_widget (apply_edit e (widget w)) w))
  | connect_clicked => Some (on_connect_clicked w)
  | disconnect_clicked => Some (on_disconnect_clicked w)
  | test_connection_clicked => Some (on_test_connection_clicked w)
  | reply_finished error body => Some (on_reply_finished error body w)
  | websocket_connected => on_websocket_connected w
  | websocket_disconnected => Some (on_websocket_disconnected w)
  | websocket_message message => Some (on_websocket_message message w)
  | status_timeout => Some (on_status_update w)
  | clock_tick t => Some (set_now t w)
  end.

Fixpoint run (events : list plugin_event) (w : World) : option World :=
  match events with
  | [] => Some w
  | e :: events =>
      match step e w with
      | Some w => run events w
      | None => None
      end
  end.

(** The connected flag the socket callbacks and [load_config] should have
    left behind: the last of them decides. *)
Definition lifecycle (flag : bool) (e : plugin_event) : bool :=
  match e with
  | websocket_connected => true
  | websocket_disconnected => false
  | config_loaded => false
  | _ => flag
  end.

End Plugin.

Arguments World : clear implicits.

(** The only socket object is the one the global points to, it was allocated
    before the next one will be, and it exists only once a configuration
    does. *)
Definition single_socket {disk} (w : World disk) : Prop :=
  dom (sockets (net w)) ⊆ match websocket (net w) with Some p => {[p]} | None => ∅ end
  ∧ ∀ p, websocket (net w) = Some p → p < next_socket (net w) ∧ plugin_config w ≠ None.

(** ** What an event leaves behind

    The scene each branch of the dispatcher switches to, and the source it
    mutes or unmutes, if any. *)

Definition event_scene (e : event_kind) : string :=
  match e with
  | meeting_started => SCENE_WELCOME
  | meeting_ended => SCENE_ENDING
  | presentation_started => SCENE_PRESENTATION
  | screen_share_started => SCENE_SCREEN_SHARE
  | screen_share_ended => SCENE_DISCUSSION
  | break_started => SCENE_BREAK
  | break_ended => SCENE_DISCUSSION
  end.

Definition event_mute (e : event_kind) : option (string * bool) :=
  match e with
  | meeting_started => Some (AUDIO_MICROPHONE, false)
  | screen_share_started => Some (AUDIO_DESKTOP, false)
  | break_started => Some (AUDIO_MICROPHONE, true)
  | break_ended => Some (AUDIO_MICROPHONE, false)
  | _ => None
  end.

(** ** Construction and destruction of the dock (lines 141-279) *)

(** The widget as [setup_ui] builds it: empty fields, port 8080, boxes
    unchecked, both buttons enabled, an empty log. *)
Definition setup_ui : MeetingMindWidget :=
  {| server_url_edit := ""; server_port_spin := 8080; api_key_edit := "";
     meeting_id_edit := "";
     auto_scene_switching_check := false; auto_recording_check := false;
     audio_management_check := false; meeting_notifications_check := false;
     connect_button := true; disconnect_button := true;
     connection_status_label := ("Disconnected", "");
     meeting_status_label := "No active meeting";
     recording_status_label := "Not recording";
     log_text := [] |}.

(** The spin box keeps its value within the range given by [setRange]. *)
Definition spin_bound (v : Z) : Z := Z.max 1 (Z.min 65535 v).

(** Whether a field would change. *)
Definition edit_differs (e : form_edit) (ui : MeetingMindWidget) : bool :=
  match e with
  | edit_server_url t => bool_decide (t ≠ server_url_edit ui)
  | edit_server_port v => bool_decide (v ≠ server_port_spin ui)
  | edit_api_key t => bool_decide (t ≠ api_key_edit ui)
  | edit_meeting_id t => bool_decide (t ≠ meeting_id_edit ui)
  | toggle_auto_scene_switching b => bool_decide (b ≠ auto_scene_switching_check ui)
  | toggle_auto_recording b => bool_decide (b ≠ auto_recording_check ui)
  | toggle_audio_management b => bool_decide (b ≠ audio_management_check ui)
  | toggle_meeting_notifications b => bool_decide (b ≠ meeting_notifications_check ui)
  end.

Section Dock.
Context {config_t disk : Type} `{!ConfigFile config_t disk} `{!QtToolkit}.

(** [setText], [setValue], [setChecked] called from code: the change signal,
    which [setup_ui] has connected to [on_config_changed], is emitted only
    when the value changes. *)
Definition set_from_code (e : form_edit) (w : World disk) : World disk :=
  if edit_differs e (widget w)
  then on_config_changed (set_widget (apply_edit e (widget w)) w)
  else w.

(** One line of "Update UI with loaded config": the global is read when the
    line runs. *)
Definition show_config (f : meetingmind_config → form_edit) (w : World disk) : World disk :=
  match plugin_config w with
  | Some c => set_from_code (f c) w
  | None => w
  end.

(** [MeetingMindWidget::MeetingMindWidget].  The status timer it starts is
    the source of the [status_timeout] events. *)
Definition MeetingMindWidget_new (w : World disk) : World disk :=
  let w := set_widget setup_ui w in
  (* Load configuration *)
  let w := load_config w in
  (* Update UI with loaded config *)
  let w :=
    match plugin_config w with
    | Some _ =>
      let w := show_config (λ c, edit_server_url (default "localhost" (server_url c))) w in
      let w := show_config (λ c, edit_server_port (spin_bound (server_port c))) w in
      let w := show_config (λ c, edit_api_key (default "" (api_key c))) w in
      let w := show_config (λ c, edit_meeting_id (default "" (meeting_id c))) w in
      let w := show_config (λ c, toggle_auto_scene_switching (auto_scene_switching c)) w in
      let w := show_config (λ c, toggle_auto_recording (auto_recording c)) w in
      let w := show_config (λ c, toggle_audio_management (audio_management c)) w in
      show_config (λ c, toggle_meeting_notifications (meeting_notifications c)) w
    | None => w
    end in
  update_connection_status w.

(** [MeetingMindWidget::~MeetingMindWidget] *)
Definition MeetingMindWidget_delete (w : World disk) : World disk :=
  match websocket (net w) with
  | Some p => set_net (set_websocket None (socket_delete p (socket_close p (net w)))) w
  | None => w
  end.

End Dock.

(** A configuration with every feature switched off. *)
Definition all_off : meetingmind_config :=
  {| server_url := Some "localhost"; server_port := 8080; api_key := Some "";
     auto_scene_switching := false; auto_recording := false; audio_management := false;
     meeting_notifications := false; connection_timeout := 10;
     meeting_id := Some ""; connected := false |}.

(** ** A reference implementation of the two interfaces

    Enough of a key-value file and of the toolkit to run the plugin on
    concrete inputs. *)

Inductive ini_value := ini_string (s : string) | ini_int (z : Z) | ini_bool (b : bool).

Record ini_config := {
  ini_file : string;
  ini_items : gmap (string * string) ini_value
}.

Abbreviation ini_disk := (gmap string (gmap (string * string) ini_value)).

Definition ini_set (c : ini_config) (s n : string) (v : option ini_value) : ini_config :=
  {| ini_file := ini_file c;
     ini_items := match v with
                  | Some v => <[(s, n) := v]> (ini_items c)
                  | None => delete (s, n) (ini_items c)
                  end |}.

Definition ini_config_file : ConfigFile ini_config ini_disk := {|
  obs_module_config_path file := "plugin_config/meetingmind-plugin/" +:+ file;
  config_create file := {| ini_file := file; ini_items := ∅ |};
  config_file := ini_file;
  config_open c open_type d :=
    match d !! ini_file c with
    | Some items => (CONFIG_SUCCESS, {| ini_file := ini_file c; ini_items := items |})
    | None =>
        match open_type with
        | CONFIG_OPEN_EXISTING => (CONFIG_FILENOTFOUND, c)
        | CONFIG_OPEN_ALWAYS => (CONFIG_SUCCESS, c)
        end
    end;
  config_get_string c s n :=
    match ini_items c !! (s, n) with Some (ini_string v) => Some v | _ => None end;
  config_get_int c s n :=
    match ini_items c !! (s, n) with Some (ini_int v) => v | _ => 0%Z end;
  config_get_bool c s n :=
    match ini_items c !! (s, n) with Some (ini_bool v) => v | _ => false end;
  config_set_string c s n v := ini_set c s n (ini_string <$> v);
  config_set_int c s n v := ini_set c s n (Some (ini_int v));
  config_set_bool c s n v := ini_set c s n (Some (ini_bool v));
  config_save c d := <[ini_file c := ini_items c]> d
|}.

Definition quoted (s : string) : string :=
  let q := String (Ascii.ascii_of_nat 34) EmptyString in q +:+ s +:+ q.

(** Replace every [%d] by [a]. *)
Fixpoint replace_marker (d : Ascii.ascii) (a : string) (s : string) : string :=
  match s with
  | EmptyString => EmptyString
  | String c rest =>
      match rest with
      | String c' rest' =>
          if Ascii.eqb c "%"%char && Ascii.eqb c' d
          then a +:+ replace_marker d a rest'
          else String c (replace_marker d a rest)
      | EmptyString => s
      end
  end.

(** The digits that follow a [%] in [s]. *)
Fixpoint markers (s : string) : list nat :=
  match s with
  | EmptyString => []
  | String c rest =>
      match rest with
      | String c' _ =>
          let d := Ascii.nat_of_ascii c' in
          if Ascii.eqb c "%"%char && bool_decide (49 ≤ d ≤ 57)
          then d :: markers rest else markers rest
      | EmptyString => []
      end
  end.

Definition sample_arg (s a : string) : string :=
  match markers s with
  | [] => s
  | d :: ds => replace_marker (Ascii.ascii_of_nat (foldr Nat.min d ds)) a s
  end.

Fixpoint sample_blocks (current s : string) : list string :=
  match s with
  | EmptyString => [current]
  | String c rest =>
      if Ascii.eqb c (Ascii.ascii_of_nat 10)
      then current :: sample_blocks EmptyString rest
      else sample_blocks (current +:+ String c EmptyString) rest
  end.

(** A view that is [width] characters wide. *)
Fixpoint sample_wrap (width room : nat) (current s : string) : list string :=
  match s with
  | EmptyString => [current]
  | String c rest =>
      match room with
      | 0 => current :: sample_wrap width (width - 1) (String c EmptyString) rest
      | S room => sample_wrap width room (current +:+ String c EmptyString) rest
      end
  end.

Definition sample_member (kv : string * QJsonValue) : string :=
  quoted kv.1 +:+ ":" +:+
  match kv.2 with JString s => quoted s | _ => "null" end.

Definition sample_toJson (doc : QJsonDocument) : string :=
  match doc with
  | JDocObject o => "{" +:+ String.concat "," (sample_member <$> map_to_list o) +:+ "}"
  | JDocArray _ => "[]"
  | JDocNull => ""
  end.

(** Decodes the one-member objects [{"type":"<event>"}] and nothing else. *)
Definition sample_fromJson (text : string) : QJsonDocument :=
  match filter (λ t, sample_toJson (JDocObject {["type" := JString t]}) = text) event_names with
  | t :: _ => JDocObject {["type" := JString t]}
  | [] => JDocNull
  end.

Definition sample_toolkit : QtToolkit := {|
  fromJson := sample_fromJson;
  toJson := sample_toJson;
  arg := sample_arg;
  arg2 s a1 a2 := replace_marker "2"%char a2 (replace_marker "1"%char a1 s);
  number := pretty;
  text_blocks := sample_blocks EmptyString;
  text_lines := sample_wrap 40 40 EmptyString
|}.

(** *** Sample states *)

Definition all_on : meetingmind_config :=
  {| server_url := Some "localhost"; server_port := 8080; api_key := Some "";
     auto_scene_switching := true; auto_recording := true; audio_management := true;
     meeting_notifications := true; connection_timeout := 10;
     meeting_id := Some "standup"; connected := false |}.

(** Recording and audio management only. *)
Definition no_scenes : meetingmind_config :=
  {| server_url := Some "localhost"; server_port := 8080; api_key := Some "";
     auto_scene_switching := false; auto_recording := true; audio_management := true;
     meeting_notifications := true; connection_timeout := 10;
     meeting_id := Some "standup"; connected := false |}.

Definition sample_host (sources : gset string) (recording : bool) : obs_state :=
  {| obs_sources := sources; obs_current_scene := None; obs_muted := ∅;
     obs_recording := recording; obs_log := []; obs_calls := []; attempted := [] |}.

(** Every scene and source of the plugin exists. *)
Definition studio : obs_state :=
  sample_host {[ SCENE_WELCOME; SCENE_PRESENTATION; SCENE_DISCUSSION; SCENE_SCREEN_SHARE;
                 SCENE_BREAK; SCENE_ENDING; AUDIO_MICROPHONE; AUDIO_DESKTOP ]} false.

(** Nothing resolves, and a recording is already running. *)
Definition bare_host_recording : obs_state := sample_host ∅ true.

Definition fresh_widget (meeting : string) : MeetingMindWidget :=
  {| server_url_edit := "localhost"; server_port_spin := 8080; api_key_edit := "";
     meeting_id_edit := meeting;
     auto_scene_switching_check := true; auto_recording_check := true;
     audio_management_check := true; meeting_notifications_check := true;
     connect_button := true; disconnect_button := false;
     connection_status_label := ("Disconnected", "color: red;");
     meeting_status_label := "No active meeting";
     recording_status_label := "Not recording";
     log_text := [] |}.

Definition no_network : network :=
  {| websocket := None; sockets := ∅; next_socket := 0; socket_log := [];
     network_manager := false; http_get := [] |}.

(** A widget whose log is full: a hundred entries, the oldest of them wider
    than the view. *)
Definition full_log_widget : MeetingMindWidget :=
  set_log_text
    ("[08:59:00] ✗ Connection test failed: Connection refused" :: replicate 99 "[08:59:30] x")
    (fresh_widget "").

(** The process right after the module is loaded: no configuration yet. *)
Definition sample_world (meeting : string) (h : obs_state) : World ini_disk :=
  {| plugin_config := None; net := no_network; widget := fresh_widget meeting;
     host := h; files := ∅; now := "09:00:00" |}.

(** The reference plugin after loading its configuration (the defaults, as
    there is no file yet) and a click on Connect. *)
Definition connecting_world (meeting : string) : World ini_disk :=
  connect_to_server (H := sample_toolkit)
    (load_config (ConfigFile0 := ini_config_file) (sample_world meeting studio)).

(** * Properties *)

(** ** The dispatcher *)

Lemma obs_exec_bind {A} (m : obs unit) (k : obs A) h :
  obs_exec (obs_bind m (λ _, k)) h = obs_exec k (obs_exec m h).
Proof. unfold obs_exec, obs_bind. destruct (m h) as [[] h']. reflexivity. Qed.

Lemma obs_exec_when b m h :
  obs_exec (obs_when b m) h = if b then obs_exec m h else h.
Proof. destruct b; reflexivity. Qed.

Lemma handle_meeting_event_perform cfg e data h :
  obs_exec (handle_meeting_event (Some cfg) (event_name e) data) h
  = perform_all (enabled_actions cfg e) h.
Proof.
  unfold enabled_actions, dispatch_table, perform_all, handle_meeting_event.
  destruct e; cbn [event_name];
    repeat (case_decide; [try discriminate | try congruence]);
    rewrite ?obs_exec_bind, ?obs_exec_when;
    destruct (auto_scene_switching cfg), (auto_recording cfg), (audio_management cfg);
    reflexivity.
Qed.

Lemma attempted_perform a h :
  attempted (obs_exec (perform a) h) = attempted h ++ [a].
Proof.
  destruct a as [n| | |n m]; unfold obs_exec; cbn.
  - destruct (decide (n ∈ obs_sources h)); reflexivity.
  - destruct (obs_recording h); reflexivity.
  - destruct (obs_recording h); reflexivity.
  - destruct (decide (n ∈ obs_sources h)); reflexivity.
Qed.

Lemma attempted_perform_all actions h :
  attempted (perform_all actions h) = attempted h ++ actions.
Proof.
  revert h. induction actions as [|a actions IH]; intros h; cbn.
  - symmetry. apply app_nil_r.
  - unfold perform_all in IH. rewrite IH, attempted_perform, <- app_assoc. reflexivity.
Qed.

(** C1. For each of the seven event types and every setting of the three
    toggles, the dispatcher performs the actions of the table of section 4.1
    in the table's order, an action being there exactly when its toggle is
    on: the helpers entered are the table's list, and the host is left as by
    performing that list one action after the other. *)
Theorem dispatch_follows_table (cfg : meetingmind_config) (e : event_kind)
    (data : QJsonObject) (h : obs_state) :
  let h' := obs_exec (handle_meeting_event (Some cfg) (event_name e) data) h in
  attempted h' =
    attempted h ++ dispatch_table (auto_scene_switching cfg) (auto_recording cfg)
                                  (audio_management cfg) e
  ∧ h' = perform_all (dispatch_table (auto_scene_switching cfg) (auto_recording cfg)
                                     (audio_management cfg) e) h.
Proof.
  cbn zeta. rewrite handle_meeting_event_perform. split.
  - apply attempted_perform_all.
  - reflexivity.
Qed.

Lemma handle_meeting_event_unknown pc event_type data h :
  event_type ∉ event_names →
  handle_meeting_event pc event_type data h = (tt, h).
Proof.
  intros Hnot. unfold handle_meeting_event. destruct pc as [cfg|]; [|reflexivity].
  repeat (case_decide as Heq;
          [exfalso; apply Hnot; rewrite Heq;
           apply (bool_decide_unpack _); reflexivity | clear Heq]).
  reflexivity.
Qed.

(** C2. An event type outside the enumeration changes nothing on the host,
    under any toggles and also without a configuration: no helper is entered,
    no frontend call is made, nothing is logged, and the dispatcher returns
    normally. *)
Theorem unknown_event_ignored (pc : option meetingmind_config) (event_type : string)
    (data : QJsonObject) (h : obs_state) :
  event_type ∉ event_names →
  handle_meeting_event pc event_type data h = (tt, h)
  ∧ attempted (obs_exec (handle_meeting_event pc event_type data) h) = attempted h
  ∧ obs_calls (obs_exec (handle_meeting_event pc event_type data) h) = obs_calls h.
Proof.
  intros Hnot. unfold obs_exec.
  rewrite (handle_meeting_event_unknown pc event_type data h Hnot). done.
Qed.

Lemma unknown_event_ignored_witness :
  ("participant_joined" ∉ event_names) ∧
  handle_meeting_event (Some all_on) "participant_joined" ∅ studio = (tt, studio).
Proof.
  assert (H : "participant_joined" ∉ event_names)
    by (apply (bool_decide_unpack _); reflexivity).
  split; [exact H | exact (proj1 (unknown_event_ignored _ _ _ _ H))].
Defined.

Lemma switch_to_scene_unresolved n h :
  n ∉ obs_sources h →
  obs_exec (switch_to_scene n) h =
    {| obs_sources := obs_sources h; obs_current_scene := obs_current_scene h;
       obs_muted := obs_muted h; obs_recording := obs_recording h;
       obs_log := obs_log h ++ [(LOG_WARNING, "MeetingMind: Scene '" +:+ n +:+ "' not found")];
       obs_calls := obs_calls h ++ [obs_get_source_by_name_call n];
       attempted := attempted h ++ [SwitchToScene n] |}.
Proof.
  intros Hn. unfold obs_exec, switch_to_scene; cbn.
  destruct (decide (n ∈ obs_sources h)); [contradiction | reflexivity].
Qed.

Lemma set_source_mute_unresolved n muted h :
  n ∉ obs_sources h →
  obs_exec (set_source_mute n muted) h =
    {| obs_sources := obs_sources h; obs_current_scene := obs_current_scene h;
       obs_muted := obs_muted h; obs_recording := obs_recording h;
       obs_log := obs_log h;
       obs_calls := obs_calls h ++ [obs_get_source_by_name_call n];
       attempted := attempted h ++ [SetSourceMute n muted] |}.
Proof.
  intros Hn. unfold obs_exec, set_source_mute; cbn.
  destruct (decide (n ∈ obs_sources h)); [contradiction | reflexivity].
Qed.

(** C3, as the code has it.  Every action of an event's list is attempted,
    each on the state the previous one left, whichever lookups fail, and the
    dispatcher returns normally.  A scene that does not resolve costs one
    warning in the log and nothing else; a source that does not resolve
    leaves no trace in the log at all. *)
Theorem lookup_failure_isolated (cfg : meetingmind_config) (e : event_kind)
    (data : QJsonObject) (h : obs_state) (n : string) (muted : bool) :
  n ∉ obs_sources h →
  let actions := dispatch_table (auto_scene_switching cfg) (auto_recording cfg)
                                (audio_management cfg) e in
  handle_meeting_event (Some cfg) (event_name e) data h = (tt, perform_all actions h)
  ∧ attempted (perform_all actions h) = attempted h ++ actions
  ∧ obs_exec (perform (SwitchToScene n)) h =
      {| obs_sources := obs_sources h; obs_current_scene := obs_current_scene h;
         obs_muted := obs_muted h; obs_recording := obs_recording h;
         obs_log := obs_log h ++ [(LOG_WARNING, "MeetingMind: Scene '" +:+ n +:+ "' not found")];
         obs_calls := obs_calls h ++ [obs_get_source_by_name_call n];
         attempted := attempted h ++ [SwitchToScene n] |}
  ∧ obs_exec (perform (SetSourceMute n muted)) h =
      {| obs_sources := obs_sources h; obs_current_scene := obs_current_scene h;
         obs_muted := obs_muted h; obs_recording := obs_recording h;
         obs_log := obs_log h;
         obs_calls := obs_calls h ++ [obs_get_source_by_name_call n];
         attempted := attempted h ++ [SetSourceMute n muted] |}.
Proof.
  intros Hn actions. repeat split.
  - pose proof (handle_meeting_event_perform cfg e data h) as H.
    unfold obs_exec in H.
    destruct (handle_meeting_event (Some cfg) (event_name e) data h) as [[] h'].
    cbn in H. subst h'. reflexivity.
  - apply attempted_perform_all.
  - apply switch_to_scene_unresolved, Hn.
  - apply set_source_mute_unresolved, Hn.
Qed.

Lemma lookup_failure_isolated_witness :
  (AUDIO_MICROPHONE ∉ obs_sources bare_host_recording) ∧
  handle_meeting_event (Some all_on) "break_started" ∅ bare_host_recording
  = (tt, perform_all [SwitchToScene SCENE_BREAK; SetSourceMute AUDIO_MICROPHONE true]
                     bare_host_recording).
Proof.
  assert (H : AUDIO_MICROPHONE ∉ obs_sources bare_host_recording)
    by (apply (bool_decide_unpack _); reflexivity).
  split; [exact H |].
  exact (proj1 (lookup_failure_isolated all_on break_started ∅ bare_host_recording
                  AUDIO_MICROPHONE true H)).
Defined.

(** C3, as stated, fails.  With scene switching off, [meeting_started] has two
    actions; on a host that is already recording and has no microphone source
    the second one's lookup fails, and the log is left as it was. *)
Lemma unresolved_source_not_logged :
  ¬ (∀ (cfg : meetingmind_config) (e : event_kind) (data : QJsonObject)
       (h : obs_state) (a : host_action),
       1 < length (enabled_actions cfg e) →
       a ∈ enabled_actions cfg e →
       lookup_fails a h = true →
       length (obs_log h)
       < length (obs_log (obs_exec (handle_meeting_event (Some cfg) (event_name e) data) h))).
Proof.
  intros H.
  specialize (H no_scenes meeting_started ∅ bare_host_recording
                (SetSourceMute AUDIO_MICROPHONE false)).
  assert (Hlt : 0 < 0); [| lia].
  apply H.
  - cbn. lia.
  - apply (bool_decide_unpack _). reflexivity.
  - reflexivity.
Qed.

(** ** Recording *)

Lemma perform_recording (a : host_action) (h : obs_state) :
  obs_recording (obs_exec (perform a) h) =
    match a with
    | StartRecording => true
    | StopRecording => false
    | _ => obs_recording h
    end
  ∧ count_calls obs_frontend_recording_start_call (obs_exec (perform a) h) =
      count_calls obs_frontend_recording_start_call h +
      match a with
      | StartRecording => if obs_recording h then 0 else 1
      | _ => 0
      end
  ∧ count_calls obs_frontend_recording_stop_call (obs_exec (perform a) h) =
      count_calls obs_frontend_recording_stop_call h +
      match a with
      | StopRecording => if obs_recording h then 1 else 0
      | _ => 0
      end.
Proof.
  unfold count_calls.
  destruct a as [n| | |n m]; unfold obs_exec; cbn;
    try destruct (decide (n ∈ obs_sources h)); try destruct (obs_recording h); cbn;
    rewrite ?filter_app, ?length_app; cbn; repeat split;
    repeat case_decide; try discriminate; try congruence; cbn; lia.
Qed.

Lemma perform_all_cons a actions h :
  perform_all (a :: actions) h = perform_all actions (obs_exec (perform a) h).
Proof. reflexivity. Qed.

Ltac recording_steps :=
  unfold perform_all; cbn [foldl];
  repeat match goal with
  | |- context [obs_exec (perform ?a) ?h] =>
      is_var h;
      let R := fresh "R" in let S := fresh "S" in let T := fresh "T" in
      destruct (perform_recording a h) as (R & S & T);
      cbn match in R, S, T;
      generalize dependent (obs_exec (perform a) h); intros
  end;
  repeat (destruct (obs_recording _)); try discriminate; cbn [andb negb]; try lia.

Lemma meeting_started_recording cfg data h :
  let h' := obs_exec (handle_meeting_event (Some cfg) "meeting_started" data) h in
  obs_recording h' = (if auto_recording cfg then true else obs_recording h)
  ∧ count_calls obs_frontend_recording_start_call h' =
      count_calls obs_frontend_recording_start_call h +
      (if auto_recording cfg && negb (obs_recording h) then 1 else 0).
Proof.
  cbn zeta. rewrite (handle_meeting_event_perform cfg meeting_started).
  unfold enabled_actions, dispatch_table.
  destruct (auto_scene_switching cfg), (auto_recording cfg), (audio_management cfg);
    cbn [table_scene table_recording table_audio app];
    split; recording_steps.
Qed.

Lemma meeting_ended_recording cfg data h :
  let h' := obs_exec (handle_meeting_event (Some cfg) "meeting_ended" data) h in
  obs_recording h' = (if auto_recording cfg then false else obs_recording h)
  ∧ count_calls obs_frontend_recording_stop_call h' =
      count_calls obs_frontend_recording_stop_call h +
      (if auto_recording cfg && obs_recording h then 1 else 0).
Proof.
  cbn zeta. rewrite (handle_meeting_event_perform cfg meeting_ended).
  unfold enabled_actions, dispatch_table.
  destruct (auto_scene_switching cfg), (auto_recording cfg), (audio_management cfg);
    cbn [table_scene table_recording table_audio app];
    split; recording_steps.
Qed.

(** C10. [start_recording] does nothing on a host that is already recording
    and [stop_recording] nothing on one that is not: apart from the query
    itself the host is untouched.  Hence two [meeting_started] events in a
    row ask the host to start recording at most once, and two
    [meeting_ended] events ask it to stop at most once. *)
Theorem recording_idempotent (cfg : meetingmind_config) (data data' : QJsonObject)
    (h : obs_state) :
  (obs_recording h = true →
   obs_exec start_recording h =
     {| obs_sources := obs_sources h; obs_current_scene := obs_current_scene h;
        obs_muted := obs_muted h; obs_recording := obs_recording h;
        obs_log := obs_log h;
        obs_calls := obs_calls h ++ [obs_frontend_recording_active_call];
        attempted := attempted h ++ [StartRecording] |})
  ∧ (obs_recording h = false →
     obs_exec stop_recording h =
       {| obs_sources := obs_sources h; obs_current_scene := obs_current_scene h;
          obs_muted := obs_muted h; obs_recording := obs_recording h;
          obs_log := obs_log h;
          obs_calls := obs_calls h ++ [obs_frontend_recording_active_call];
          attempted := attempted h ++ [StopRecording] |})
  ∧ count_calls obs_frontend_recording_start_call
      (obs_exec (handle_meeting_event (Some cfg) "meeting_started" data')
         (obs_exec (handle_meeting_event (Some cfg) "meeting_started" data) h))
    ≤ count_calls obs_frontend_recording_start_call h + 1
  ∧ count_calls obs_frontend_recording_stop_call
      (obs_exec (handle_meeting_event (Some cfg) "meeting_ended" data')
         (obs_exec (handle_meeting_event (Some cfg) "meeting_ended" data) h))
    ≤ count_calls obs_frontend_recording_stop_call h + 1.
Proof.
  split; [| split; [| split]].
  - intros Hrec. unfold obs_exec, start_recording; cbn. rewrite Hrec. reflexivity.
  - intros Hrec. unfold obs_exec, stop_recording; cbn. rewrite Hrec. reflexivity.
  - destruct (meeting_started_recording cfg data h) as [R1 C1].
    destruct (meeting_started_recording cfg data'
                (obs_exec (handle_meeting_event (Some cfg) "meeting_started" data) h))
      as [_ C2].
    cbn zeta in *. rewrite C2, C1, R1.
    destruct (auto_recording cfg), (obs_recording h); cbn; lia.
  - destruct (meeting_ended_recording cfg data h) as [R1 C1].
    destruct (meeting_ended_recording cfg data'
                (obs_exec (handle_meeting_event (Some cfg) "meeting_ended" data) h))
      as [_ C2].
    cbn zeta in *. rewrite C2, C1, R1.
    destruct (auto_recording cfg), (obs_recording h); cbn; lia.
Qed.

Lemma recording_idempotent_witness :
  (obs_recording bare_host_recording = true ∧
   obs_exec start_recording bare_host_recording =
     {| obs_sources := ∅; obs_current_scene := None; obs_muted := ∅;
        obs_recording := true; obs_log := [];
        obs_calls := [obs_frontend_recording_active_call];
        attempted := [StartRecording] |})
  ∧ (obs_recording studio = false ∧
     obs_exec stop_recording studio =
       {| obs_sources := obs_sources studio; obs_current_scene := None; obs_muted := ∅;
          obs_recording := false; obs_log := [];
          obs_calls := [obs_frontend_recording_active_call];
          attempted := [StopRecording] |}).
Proof.
  split; (split; [reflexivity |]).
  - exact (proj1 (recording_idempotent all_on ∅ ∅ bare_host_recording) eq_refl).
  - exact (proj1 (proj2 (recording_idempotent all_on ∅ ∅ studio)) eq_refl).
Defined.

(** ** The widget and its callbacks *)

Section PluginProperties.
Context {config_t disk : Type} `{!ConfigFile config_t disk} `{!QtToolkit}.
Implicit Types w : World disk.

Lemma position_leb_origin p : position_leb (0, 0) p = true.
Proof.
  unfold position_leb. cbn. destruct p as [[|b] l]; cbn.
  - rewrite (bool_decide_eq_true_2 (0 ≤ l)) by lia. reflexivity.
  - rewrite (bool_decide_eq_true_2 (0 < S b)) by lia. reflexivity.
Qed.

(** After [n] moves down from the start of the document the cursor is at most
    [n] blocks down, and exactly [n] blocks down only at the start of a
    block. *)
Lemma iter_line_down (doc : list string) (n : nat) :
  let p := Nat.iter n (line_down doc) (0, 0) in
  p.1 ≤ n ∧ (p.2 ≠ 0 → p.1 < n) ∧ p.1 < blockCount doc.
Proof.
  induction n as [|n IH]; cbn zeta.
  - cbn. unfold blockCount. repeat split; lia.
  - rewrite Nat.iter_succ. cbn zeta in IH.
    destruct (Nat.iter n (line_down doc) (0, 0)) as [b l].
    destruct IH as (H1 & H2 & H3). cbn in H1, H2, H3.
    unfold line_down. cbn [fst snd].
    destruct (decide _); [| destruct (decide _)]; cbn [fst snd]; repeat split; lia.
Qed.

Lemma log_message_log_text message w :
  let doc := log_text (widget w) ++ text_blocks (arg2 "[%1] %2" (now w) message) in
  log_text (widget (log_message message w)) =
    if decide (100 < blockCount doc) then
      let p := Nat.iter (blockCount doc - 100) (line_down doc) (0, 0) in
      let last := default "" (doc !! p.1) in
      drop_chars (chars_before p.2 last) last :: drop (S p.1) doc
    else doc.
Proof.
  cbn zeta. unfold log_message. cbn [widget set_widget log_text set_log_text].
  set (doc := log_text (widget w) ++ text_blocks _).
  destruct (decide _) as [Hgt|Hle]; [| reflexivity].
  unfold removeSelectedText, movePosition. cbn [cursor_anchor cursor_position].
  rewrite position_leb_origin. reflexivity.
Qed.

(** C4, as the code has it.  When the opened callback runs with a socket in
    place it succeeds, and what it sends depends on the meeting-ID field of
    the form: nothing when the field is empty, otherwise exactly one message,
    the object with members [type = "subscribe"] and [meeting_id] equal to
    the field's text. *)
Theorem subscribe_on_open (w : World disk) (p : nat) :
  websocket (net w) = Some p →
  is_Some (sockets (net w) !! p) →
  ∃ w', on_websocket_connected w = Some w'
    ∧ socket_log (net w') =
        socket_log (net w) ++
        (if decide (meeting_id_edit (widget w) = "") then []
         else [ws_sendTextMessage p
                 (toJson (JDocObject
                    {[ "type" := JString "subscribe";
                       "meeting_id" := JString (meeting_id_edit (widget w)) ]}))]).
Proof.
  intros Hp Hs. unfold on_websocket_connected.
  set (w1 := update_connection_status _).
  assert (Hnet : net w1 = net w).
  { unfold w1, update_connection_status.
    destruct (is_connected _); cbn; destruct (plugin_config w); reflexivity. }
  assert (Hid : meeting_id_edit (widget w1) = meeting_id_edit (widget w)).
  { unfold w1, update_connection_status.
    destruct (is_connected _); cbn; destruct (plugin_config w); reflexivity. }
  rewrite Hid. destruct (decide (meeting_id_edit (widget w) = "")) as [He|Hne].
  - exists w1. split; [reflexivity |]. rewrite app_nil_r. f_equal. exact Hnet.
  - rewrite Hnet, Hp. destruct (decide (is_Some _)) as [_|Hno]; [|contradiction].
    eexists. split; reflexivity.
Qed.

(** C8, as the code has it.  Handling a message never fails: the handler
    dispatches what decoding gives.  A text that is not JSON decodes to the
    empty object; without a [type] member the event type is the empty string
    and the host is left alone; without a [data] member the payload is the
    empty object and the event is dispatched by its type as usual. *)
Theorem message_decoding_defaults (message : string) (w : World disk) :
  let obj := object (fromJson message) in
  host (on_websocket_message message w) =
    obs_exec (handle_meeting_event (plugin_config w) (toString (value obj "type"))
                (toObject (value obj "data"))) (host w)
  ∧ (fromJson message = JDocNull → obj = ∅)
  ∧ (obj !! "type" = None →
     toString (value obj "type") = "" ∧ host (on_websocket_message message w) = host w)
  ∧ (obj !! "data" = None → toObject (value obj "data") = ∅).
Proof.
  cbn zeta. repeat split.
  - intros ->. reflexivity.
  - unfold value. rewrite H0. reflexivity.
  - unfold on_websocket_message, value. rewrite H0. cbn.
    unfold obs_exec. rewrite handle_meeting_event_unknown; [reflexivity |].
    apply (bool_decide_unpack _). reflexivity.
  - intros Hd. unfold value. rewrite Hd. reflexivity.
Qed.

(** ** The connected flag *)

Lemma update_connection_status_frame w :
  plugin_config (update_connection_status w) = plugin_config w
  ∧ net (update_connection_status w) = net w.
Proof. unfold update_connection_status. destruct (is_connected w); done. Qed.

Lemma save_config_frame w :
  plugin_config (save_config w) = plugin_config w ∧ net (save_config w) = net w.
Proof. unfold save_config. destruct (plugin_config w) eqn:E; cbn; rewrite ?E; done. Qed.

Lemma connect_to_server_config w :
  plugin_config (connect_to_server w) = plugin_config w.
Proof.
  unfold connect_to_server. destruct (plugin_config w) eqn:E; [|exact E].
  destruct (websocket (socket_new _)); exact E.
Qed.

Lemma on_config_changed_config w :
  match plugin_config w with
  | Some c => ∃ c', plugin_config (on_config_changed w) = Some c' ∧ connected c' = connected c
  | None => plugin_config (on_config_changed w) = None
  end.
Proof.
  unfold on_config_changed. destruct (plugin_config w) as [c|] eqn:E; [|exact E].
  rewrite (proj1 (save_config_frame _)). eexists. split; reflexivity.
Qed.

Lemma step_plugin_config e w w' :
  step e w = Some w' →
  match e with
  | config_loaded => ∃ c, plugin_config w' = Some (set_connected false c)
  | websocket_connected => plugin_config w' = set_connected true <$> plugin_config w
  | websocket_disconnected => plugin_config w' = set_connected false <$> plugin_config w
  | form_edited _ =>
      match plugin_config w with
      | Some c => ∃ c', plugin_config w' = Some c' ∧ connected c' = connected c
      | None => plugin_config w' = None
      end
  | _ => plugin_config w' = plugin_config w
  end.
Proof.
  destruct e; cbn [step]; intros Hstep; try (injection Hstep as <-).
  - unfold load_config. destruct (config_open _ _ _). eexists. reflexivity.
  - exact (on_config_changed_config (set_widget (apply_edit e (widget w)) w)).
  - apply connect_to_server_config.
  - unfold on_disconnect_clicked, disconnect_from_server.
    destruct (websocket (net w)); reflexivity.
  - reflexivity.
  - unfold on_reply_finished. destruct error; [reflexivity |].
    destruct (decide _); reflexivity.
  - unfold on_websocket_connected in Hstep.
    set (w1 := update_connection_status _) in Hstep.
    assert (H1 : plugin_config w1 = set_connected true <$> plugin_config w).
    { unfold w1. rewrite (proj1 (update_connection_status_frame _)).
      cbn. destruct (plugin_config w) eqn:E; cbn; [reflexivity | exact E]. }
    destruct (decide _); [injection Hstep as <-; exact H1 |].
    destruct (websocket (net w1)); [|discriminate].
    destruct (decide _); [|discriminate].
    injection Hstep as <-. exact H1.
  - unfold on_websocket_disconnected.
    rewrite (proj1 (update_connection_status_frame _)).
    cbn. destruct (plugin_config w) eqn:E; cbn; [reflexivity | exact E].
  - reflexivity.
  - unfold on_status_update. destruct (obs_frontend_recording_active _). reflexivity.
  - reflexivity.
Qed.

Lemma step_is_connected e w w' :
  plugin_config w ≠ None →
  step e w = Some w' →
  plugin_config w' ≠ None ∧ is_connected w' = lifecycle (is_connected w) e.
Proof.
  intros Hc Hstep. pose proof (step_plugin_config e w w' Hstep) as H0.
  unfold is_connected.
  destruct (plugin_config w) as [c|]; [clear Hc | contradiction].
  destruct e; cbn in *; try (rewrite H0; done).
  - destruct H0 as [c' ->]. done.
  - destruct H0 as (c' & -> & ->). done.
Qed.

Lemma run_is_connected events w w' :
  plugin_config w ≠ None →
  run events w = Some w' →
  plugin_config w' ≠ None ∧ is_connected w' = foldl lifecycle (is_connected w) events.
Proof.
  revert w. induction events as [|e events IH]; intros w Hc Hrun; cbn in *.
  - injection Hrun as <-. done.
  - destruct (step e w) as [w1|] eqn:Hstep; [|discriminate].
    destruct (step_is_connected e w w1 Hc Hstep) as [Hc1 <-].
    apply IH; assumption.
Qed.

Lemma lifecycle_true events :
  foldl lifecycle false events = true →
  ∃ before after, events = before ++ websocket_connected :: after
    ∧ (websocket_disconnected ∉ after) ∧ (config_loaded ∉ after).
Proof.
  induction events as [|e events IH] using rev_ind; [discriminate |].
  rewrite foldl_app. cbn [foldl]. intros Htrue.
  destruct e; cbn in Htrue; try discriminate;
    try (destruct (IH Htrue) as (before & after & -> & Hd & Hl);
         eexists before, (after ++ [_]);
         split; [rewrite <- app_assoc; reflexivity |];
         split; rewrite elem_of_app, list_elem_of_singleton; intros [?|?];
         done).
  exists events, []. split; [reflexivity |]. split; apply not_elem_of_nil.
Qed.

(** C7. After [load_config] the connected flag is false.  From then on,
    through any sequence of events on the dock, the flag is what the last
    socket callback (or reload) made it: true after the opened callback,
    false after the closed callback.  So whenever it is true, an opened
    callback has run and no closed callback has run since. *)
Theorem connected_flag_tracks_callbacks (w : World disk)
    (events : list plugin_event) (w' : World disk) :
  is_connected (load_config w) = false
  ∧ (run events (load_config w) = Some w' →
     is_connected w' = foldl lifecycle false events
     ∧ (is_connected w' = true →
        ∃ before after, events = before ++ websocket_connected :: after
          ∧ (websocket_disconnected ∉ after))).
Proof.
  assert (H0 : plugin_config (load_config w) ≠ None ∧ is_connected (load_config w) = false).
  { unfold is_connected, load_config. destruct (config_open _ _ _). done. }
  destruct H0 as [Hc Hf]. split; [exact Hf |].
  intros Hrun. destruct (run_is_connected _ _ _ Hc Hrun) as [_ Hflag].
  rewrite Hf in Hflag. split; [exact Hflag |].
  rewrite Hflag. intros Htrue.
  destruct (lifecycle_true events Htrue) as (before & after & ? & ? & _). eauto.
Qed.

(** ** One connection at a time *)

Lemma step_net e w w' :
  step e w = Some w' →
  net w' = net w
  ∨ w' = connect_to_server w
  ∨ (∃ p, websocket (net w) = Some p ∧ net w' = socket_close p (net w))
  ∨ (∃ r, net w' = network_get r (net w))
  ∨ (∃ p m, net w' = socket_sendTextMessage p m (net w)).
Proof.
  destruct e; cbn [step]; intros Hstep; try (injection Hstep as <-).
  - left. unfold load_config. destruct (config_open _ _ _). reflexivity.
  - left. unfold on_config_changed.
    destruct (plugin_config _); [rewrite (proj2 (save_config_frame _)) |]; reflexivity.
  - right. left. reflexivity.
  - unfold on_disconnect_clicked, disconnect_from_server.
    destruct (websocket (net w)) as [p|] eqn:E; [|left; reflexivity].
    right. right. left. exists p. split; reflexivity.
  - right. right. right. left. eexists. reflexivity.
  - left. unfold on_reply_finished. destruct error; [reflexivity |].
    destruct (decide _); reflexivity.
  - unfold on_websocket_connected in Hstep.
    set (w1 := update_connection_status _) in Hstep.
    assert (H1 : net w1 = net w).
    { unfold w1. rewrite (proj2 (update_connection_status_frame _)).
      cbn. destruct (plugin_config w); reflexivity. }
    destruct (decide _); [injection Hstep as <-; left; exact H1 |].
    destruct (websocket (net w1)) as [p|]; [|discriminate].
    destruct (decide _); [|discriminate].
    injection Hstep as <-. do 4 right. do 2 eexists. cbn. rewrite H1. reflexivity.
  - left. unfold on_websocket_disconnected.
    rewrite (proj2 (update_connection_status_frame _)).
    cbn. destruct (plugin_config w); reflexivity.
  - left. reflexivity.
  - left. unfold on_status_update. destruct (obs_frontend_recording_active _). reflexivity.
  - left. reflexivity.
Qed.

Lemma connect_to_server_net w c :
  plugin_config w = Some c →
  ∃ request,
    net (connect_to_server w) =
      socket_open (next_socket (net w)) request
        (socket_new match websocket (net w) with
                    | Some p => socket_delete p (socket_close p (net w))
                    | None => net w
                    end).
Proof.
  intros Hc. unfold connect_to_server. rewrite Hc.
  eexists. destruct (websocket (net w)); reflexivity.
Qed.

Lemma connect_to_server_single w :
  single_socket w → single_socket (connect_to_server w).
Proof.
  intros Hinv. destruct (plugin_config w) as [c|] eqn:Hc.
  - destruct Hinv as [Hdom Hp].
    destruct (connect_to_server_net w c Hc) as [request Hnet].
    unfold single_socket. rewrite Hnet, connect_to_server_config.
    split.
    + destruct (websocket (net w)) as [p|]; cbn;
        rewrite dom_alter_L, dom_insert_L, ?dom_delete_L, ?dom_alter_L;
        intros q; rewrite elem_of_union, ?elem_of_difference;
        intros [Hq|Hq]; try exact Hq.
      * destruct Hq as [Hq Hne]. apply Hdom in Hq. contradiction.
      * apply Hdom in Hq. apply not_elem_of_empty in Hq. contradiction.
    + intros p' Hp'. split; [| congruence].
      destruct (websocket (net w)); cbn in *; injection Hp' as <-; lia.
  - unfold connect_to_server. rewrite Hc. exact Hinv.
Qed.

Lemma step_single_socket e w w' :
  step e w = Some w' → single_socket w → single_socket w'.
Proof.
  intros Hstep Hinv.
  assert (Hcfg : plugin_config w ≠ None → plugin_config w' ≠ None)
    by (intros Hc; apply (step_is_connected e w w' Hc Hstep)).
  destruct (step_net e w w' Hstep) as [Hn|[->|[(p & Hp & Hn)|[[r Hn]|(p & m & Hn)]]]].
  - destruct Hinv as [Hdom Hp]. unfold single_socket. rewrite Hn.
    split; [exact Hdom |]. intros p Hw. destruct (Hp p Hw). auto.
  - apply connect_to_server_single, Hinv.
  - destruct Hinv as [Hdom Hq]. unfold single_socket. rewrite Hn. cbn.
    rewrite dom_alter_L. split; [exact Hdom |].
    intros q Hw. destruct (Hq q Hw). auto.
  - destruct Hinv as [Hdom Hq]. unfold single_socket. rewrite Hn. cbn.
    split; [exact Hdom |]. intros q Hw. destruct (Hq q Hw). auto.
  - destruct Hinv as [Hdom Hq]. unfold single_socket. rewrite Hn. cbn.
    split; [exact Hdom |]. intros q Hw. destruct (Hq q Hw). auto.
Qed.

Lemma run_single_socket events w w' :
  run events w = Some w' → single_socket w → single_socket w'.
Proof.
  revert w. induction events as [|e events IH]; intros w Hrun Hinv; cbn in Hrun.
  - injection Hrun as <-. exact Hinv.
  - destruct (step e w) as [w1|] eqn:Hstep; [|discriminate].
    eauto using step_single_socket.
Qed.

Lemma single_socket_live w :
  single_socket w → size (live_connections (net w)) ≤ 1.
Proof.
  intros [Hdom _]. unfold live_connections.
  etransitivity; [apply map_subseteq_size, map_filter_subseteq |].
  rewrite <- size_dom.
  etransitivity; [apply subseteq_size, Hdom |].
  destruct (websocket (net w)); [rewrite size_singleton | rewrite size_empty]; lia.
Qed.

(** C6. From a start without sockets, through any sequence of events on the
    dock, at most one connection is live.  Connecting again while the global
    socket is set closes and deletes exactly that socket, then creates and
    opens exactly one new one, which is afterwards the only socket object
    there is. *)
Theorem reconnect_replaces_connection (events : list plugin_event)
    (w0 w : World disk) (p : nat) :
  websocket (net w0) = None →
  sockets (net w0) = ∅ →
  run events w0 = Some w →
  size (live_connections (net w)) ≤ 1
  ∧ (websocket (net w) = Some p →
     let w' := connect_to_server w in
     let p' := next_socket (net w) in
     ∃ request,
       socket_log (net w') =
         socket_log (net w) ++ [ws_close p; ws_delete p; ws_new p'; ws_open p' request]
       ∧ websocket (net w') = Some p'
       ∧ p' ≠ p
       ∧ sockets (net w') = {[ p' := {| ws_request := Some request; ws_live := true |} ]}
       ∧ size (live_connections (net w')) = 1).
Proof.
  intros Hnone Hempty Hrun.
  assert (Hinv : single_socket w).
  { apply (run_single_socket events w0 w Hrun). unfold single_socket.
    rewrite Hnone, Hempty, dom_empty_L. split; [done | intros ?; discriminate]. }
  split; [apply single_socket_live, Hinv |].
  intros Hp. cbn zeta. destruct Hinv as [Hdom Hlt].
  destruct (Hlt p Hp) as [Hlt' Hcfg].
  destruct (plugin_config w) as [c|] eqn:Hc; [clear Hcfg | contradiction].
  destruct (connect_to_server_net w c Hc) as [request Hnet].
  exists request. rewrite Hnet, Hp in *. cbn.
  assert (Hs : alter (λ _, {| ws_request := Some request; ws_live := true |})
                 (next_socket (net w))
                 (<[next_socket (net w) := {| ws_request := None; ws_live := false |}]>
                    (delete p (alter (λ s, {| ws_request := ws_request s; ws_live := false |})
                                 p (sockets (net w)))))
               = {[ next_socket (net w) := {| ws_request := Some request; ws_live := true |} ]}).
  { rewrite alter_insert_eq, delete_alter_eq.
    replace (delete p (sockets (net w))) with (∅ : gmap nat QWebSocket); [apply insert_empty |].
    symmetry. apply dom_empty_inv_L. rewrite dom_delete_L.
    apply elem_of_equiv_empty_L. intros q. rewrite elem_of_difference.
    intros [Hq Hne]. apply Hdom in Hq. contradiction. }
  repeat split.
  - rewrite <- !app_assoc. reflexivity.
  - lia.
  - exact Hs.
  - unfold live_connections. cbn. rewrite Hs.
    rewrite map_filter_singleton_True by reflexivity. apply map_size_singleton.
Qed.

End PluginProperties.

(** ** Saving and reloading the configuration *)


Section ConfigRoundTrip.
Context {config_t disk : Type} `{!ConfigFile config_t disk} `{!ConfigFileLaws}.
Implicit Types (c : config_t) (s n : string).




End ConfigRoundTrip.


(** ** What the dispatcher leaves behind *)

Lemma event_names_cases event_type :
  event_type ∈ event_names → ∃ e, event_type = event_name e.
Proof.
  unfold event_names. cbn. rewrite !elem_of_cons, elem_of_nil.
  intros [->|[->|[->|[->|[->|[->|[->|[]]]]]]]].
  - by exists meeting_started.
  - by exists meeting_ended.
  - by exists presentation_started.
  - by exists screen_share_started.
  - by exists screen_share_ended.
  - by exists break_started.
  - by exists break_ended.
Qed.

Lemma perform_state (a : host_action) (h : obs_state) :
  obs_sources (obs_exec (perform a) h) = obs_sources h
  ∧ obs_current_scene (obs_exec (perform a) h) =
      match a with
      | SwitchToScene n =>
          if decide (n ∈ obs_sources h) then Some n else obs_current_scene h
      | _ => obs_current_scene h
      end
  ∧ obs_muted (obs_exec (perform a) h) =
      match a with
      | SetSourceMute n m =>
          if decide (n ∈ obs_sources h) then <[n := m]> (obs_muted h) else obs_muted h
      | _ => obs_muted h
      end
  ∧ obs_recording (obs_exec (perform a) h) =
      match a with
      | StartRecording => true
      | StopRecording => false
      | _ => obs_recording h
      end.
Proof.
  destruct a as [n| | |n m]; unfold obs_exec; cbn;
    try destruct (decide (n ∈ obs_sources h)); try destruct (obs_recording h);
    repeat split.
Qed.

Ltac state_steps :=
  unfold perform_all; cbn [foldl];
  repeat match goal with
  | |- context [obs_exec (perform ?a) ?h] =>
      is_var h;
      let S := fresh "S" in let C := fresh "C" in
      let M := fresh "M" in let R := fresh "R" in
      destruct (perform_state a h) as (S & C & M & R);
      cbn match in S, C, M, R;
      generalize dependent (obs_exec (perform a) h); intros
  end;
  repeat match goal with
  | H : ?f ?o = _ |- context [?f ?o] => rewrite H
  end.

Lemma event_state cfg e data h :
  let h' := obs_exec (handle_meeting_event (Some cfg) (event_name e) data) h in
  obs_sources h' = obs_sources h
  ∧ obs_current_scene h' =
      (if auto_scene_switching cfg && bool_decide (event_scene e ∈ obs_sources h)
       then Some (event_scene e) else obs_current_scene h)
  ∧ obs_muted h' =
      match event_mute e with
      | Some (n, m) =>
          if audio_management cfg && bool_decide (n ∈ obs_sources h)
          then <[n := m]> (obs_muted h) else obs_muted h
      | None => obs_muted h
      end
  ∧ obs_recording h' =
      (if auto_recording cfg
       then match e with
            | meeting_started => true
            | meeting_ended => false
            | _ => obs_recording h
            end
       else obs_recording h).
Proof.
  cbn zeta. rewrite handle_meeting_event_perform.
  unfold enabled_actions, dispatch_table.
  destruct e, (auto_scene_switching cfg), (auto_recording cfg), (audio_management cfg);
    cbn [table_scene table_recording table_audio app event_scene event_mute andb];
    (split; [| split; [| split]]); state_steps;
    repeat case_bool_decide; repeat case_decide; done.
Qed.

(** X1. A feature that is switched off is never touched, whatever event
    arrives, known or not: without scene switching the current scene stays,
    without recording control the recording state stays, without audio
    management the mute states stay; with all three off the host is left
    exactly as it was. *)
Theorem disabled_feature_untouched (cfg : meetingmind_config) (event_type : string)
    (data : QJsonObject) (h : obs_state) :
  let h' := obs_exec (handle_meeting_event (Some cfg) event_type data) h in
  (auto_scene_switching cfg = false → obs_current_scene h' = obs_current_scene h)
  ∧ (auto_recording cfg = false → obs_recording h' = obs_recording h)
  ∧ (audio_management cfg = false → obs_muted h' = obs_muted h)
  ∧ (auto_scene_switching cfg = false → auto_recording cfg = false →
     audio_management cfg = false → h' = h).
Proof.
  cbn zeta. destruct (decide (event_type ∈ event_names)) as [Hin|Hnot].
  - destruct (event_names_cases _ Hin) as [e ->].
    destruct (event_state cfg e data h) as (_ & C & M & R). cbn zeta in *.
    repeat split.
    + intros Hoff. rewrite C, Hoff. reflexivity.
    + intros Hoff. rewrite R, Hoff. reflexivity.
    + intros Hoff. rewrite M, Hoff. destruct (event_mute e) as [[n m]|]; reflexivity.
    + intros H1 H2 H3. rewrite handle_meeting_event_perform.
      unfold enabled_actions, dispatch_table. rewrite H1, H2, H3. reflexivity.
  - unfold obs_exec. rewrite (handle_meeting_event_unknown _ _ _ _ Hnot). done.
Qed.

(** X2. After a known event the current scene is the event's scene if scene
    switching is on and a source of that name exists, and the scene it was
    before otherwise. *)
Theorem scene_after_event (cfg : meetingmind_config) (e : event_kind)
    (data : QJsonObject) (h : obs_state) :
  obs_current_scene (obs_exec (handle_meeting_event (Some cfg) (event_name e) data) h) =
    if auto_scene_switching cfg && bool_decide (event_scene e ∈ obs_sources h)
    then Some (event_scene e) else obs_current_scene h.
Proof. apply (event_state cfg e data h). Qed.

(** X3. After a known event the mute states are as before, except that the
    event's audio source, if the event has one, audio management is on and
    the source exists, is muted or unmuted as the event says.  No event adds
    or removes a source. *)
Theorem mute_after_event (cfg : meetingmind_config) (e : event_kind)
    (data : QJsonObject) (h : obs_state) :
  let h' := obs_exec (handle_meeting_event (Some cfg) (event_name e) data) h in
  obs_sources h' = obs_sources h
  ∧ obs_muted h' =
      match event_mute e with
      | Some (n, m) =>
          if audio_management cfg && bool_decide (n ∈ obs_sources h)
          then <[n := m]> (obs_muted h) else obs_muted h
      | None => obs_muted h
      end.
Proof.
  destruct (event_state cfg e data h) as (S & _ & M & _). split; assumption.
Qed.

(** X4. With recording control on, the host records after [meeting_started]
    and does not record after [meeting_ended], whatever it did before: a
    meeting that starts and ends leaves the host not recording even if a
    recording was already running when the meeting started. *)
Theorem meeting_recording_cycle (cfg : meetingmind_config) (data data' : QJsonObject)
    (h : obs_state) :
  auto_recording cfg = true →
  let started := obs_exec (handle_meeting_event (Some cfg) "meeting_started" data) h in
  let ended := obs_exec (handle_meeting_event (Some cfg) "meeting_ended" data') started in
  obs_recording started = true
  ∧ obs_recording (obs_exec (handle_meeting_event (Some cfg) "meeting_ended" data) h) = false
  ∧ obs_recording ended = false.
Proof.
  intros Hon. cbn zeta.
  pose proof (event_state cfg meeting_started data h) as (_ & _ & _ & R1).
  pose proof (event_state cfg meeting_ended data h) as (_ & _ & _ & R2).
  pose proof (event_state cfg meeting_ended data'
                (obs_exec (handle_meeting_event (Some cfg) "meeting_started" data) h))
    as (_ & _ & _ & R3).
  cbn zeta in *. cbn [event_name] in *. rewrite Hon in *. done.
Qed.

Lemma perform_lookup (a : host_action) (h : obs_state) (n : string) :
  let looked :=
    match a with
    | SwitchToScene m | SetSourceMute m _ => if decide (m = n) then 1 else 0
    | _ => 0
    end in
  obs_sources (obs_exec (perform a) h) = obs_sources h
  ∧ count_calls (obs_get_source_by_name_call n) (obs_exec (perform a) h) =
      count_calls (obs_get_source_by_name_call n) h + looked
  ∧ count_calls (obs_source_release_call n) (obs_exec (perform a) h) =
      count_calls (obs_source_release_call n) h +
      (if decide (n ∈ obs_sources h) then looked else 0).
Proof.
  unfold count_calls.
  destruct a as [m| | |m b]; unfold obs_exec; cbn;
    try destruct (decide (m ∈ obs_sources h)); try destruct (obs_recording h); cbn;
    rewrite ?filter_app, ?length_app; cbn; repeat split;
    repeat case_decide; simplify_eq; cbn; try lia; try contradiction.
Qed.

Lemma perform_all_lookup (actions : list host_action) (h : obs_state) (n : string) :
  ∃ k,
    obs_sources (perform_all actions h) = obs_sources h
    ∧ count_calls (obs_get_source_by_name_call n) (perform_all actions h) =
        count_calls (obs_get_source_by_name_call n) h + k
    ∧ count_calls (obs_source_release_call n) (perform_all actions h) =
        count_calls (obs_source_release_call n) h +
        (if decide (n ∈ obs_sources h) then k else 0).
Proof.
  revert h. induction actions as [|a actions IH]; intros h.
  - exists 0. cbn. repeat split; try lia. destruct (decide _); lia.
  - destruct (perform_lookup a h n) as (S1 & G1 & R1). cbn zeta in *.
    destruct (IH (obs_exec (perform a) h)) as (k & S2 & G2 & R2).
    rewrite perform_all_cons. rewrite S1 in *.
    match type of G1 with _ = _ + ?l => exists (l + k) end.
    split; [exact S2 |]. split.
    + rewrite G2, G1. lia.
    + rewrite R2, R1. destruct (decide (n ∈ obs_sources h)); lia.
Qed.

(** X5. The dispatcher releases every source reference it obtains: during
    any event, for each name, there are as many releases as lookups if the
    name resolves, and no release if it does not. *)
Theorem source_references_released (cfg : meetingmind_config) (event_type : string)
    (data : QJsonObject) (h : obs_state) (n : string) :
  let h' := obs_exec (handle_meeting_event (Some cfg) event_type data) h in
  ∃ lookups,
    count_calls (obs_get_source_by_name_call n) h' =
      count_calls (obs_get_source_by_name_call n) h + lookups
    ∧ count_calls (obs_source_release_call n) h' =
        count_calls (obs_source_release_call n) h +
        (if decide (n ∈ obs_sources h) then lookups else 0).
Proof.
  cbn zeta. destruct (decide (event_type ∈ event_names)) as [Hin|Hnot].
  - destruct (event_names_cases _ Hin) as [e ->].
    rewrite handle_meeting_event_perform.
    destruct (perform_all_lookup (enabled_actions cfg e) h n) as (k & _ & G & R).
    exists k. split; assumption.
  - unfold obs_exec. rewrite (handle_meeting_event_unknown _ _ _ _ Hnot).
    exists 0. cbn. split; [lia | destruct (decide _); lia].
Qed.

(** ** The dock: log, status display, sockets, requests *)

Section DockProperties.
Context {config_t disk : Type} `{!ConfigFile config_t disk} `{!QtToolkit}.
Implicit Types w : World disk.

(** X6. A new entry of at most 100 blocks is never cut, however the older
    entries wrap: the log ends with the whole entry, preceded by no more
    blocks than the old log had.  While old log and entry together stay
    within 100 blocks nothing is removed at all.  Logging changes the log
    and nothing else. *)
Theorem log_message_keeps_entry (message : string) (w : World disk) :
  let entry := text_blocks (arg2 "[%1] %2" (now w) message) in
  let w' := log_message message w in
  (length entry ≤ 100 →
   ∃ kept, log_text (widget w') = kept ++ entry
           ∧ length kept ≤ length (log_text (widget w)))
  ∧ (length (log_text (widget w)) + length entry ≤ 100 →
     log_text (widget w') = log_text (widget w) ++ entry)
  ∧ w' = set_widget (set_log_text (log_text (widget w')) (widget w)) w.
Proof.
  cbn zeta. split; [| split; [| reflexivity]];
    rewrite log_message_log_text; cbn zeta;
    set (entry := text_blocks _); set (old := log_text (widget w)).
  - intros Hle. destruct (decide _) as [Hgt|Hno]; [| exists old; split; [reflexivity | lia]].
    assert (Hlen : blockCount (old ++ entry) = length old + length entry).
    { unfold blockCount in *. rewrite length_app in *. lia. }
    rewrite Hlen.
    pose proof (iter_line_down (old ++ entry) (length old + length entry - 100))
      as (H1 & H2 & H3).
    cbn zeta in H1, H2, H3. rewrite Hlen in H3.
    destruct (Nat.iter _ _ _) as [b l]. cbn [fst snd] in *.
    destruct (decide (b < length old)) as [Hb|Hb].
    + eexists (_ :: drop (S b) old). split.
      * rewrite drop_app_le by lia. reflexivity.
      * cbn. rewrite length_drop. lia.
    + assert (Hb' : b = length old) by lia.
      assert (Hl : l = 0) by (destruct l; [reflexivity | lia]).
      subst b l. exists []. split; [| cbn; lia].
      destruct (lookup_lt_is_Some_2 (old ++ entry) (length old)) as [x Hx]; [rewrite length_app; lia |].
      rewrite Hx. change (default "" (Some x)) with x.
      change (drop_chars (chars_before 0 x) x) with x. rewrite app_nil_l.
      rewrite <- (drop_S _ _ _ Hx). apply drop_app_length.
  - intros Hle. destruct (decide _) as [Hgt|Hno]; [| reflexivity].
    unfold blockCount in Hgt. rewrite length_app in Hgt. lia.
Qed.

Lemma update_connection_status_widget w :
  widget (update_connection_status w) =
    set_connection_status
      (if is_connected w then ("Connected", "color: green;")
       else ("Disconnected", "color: red;"))
      (negb (is_connected w)) (is_connected w) (widget w).
Proof. unfold update_connection_status. destruct (is_connected w); reflexivity. Qed.

(** X7. The status display follows the socket callbacks.  After the closed
    callback the label reads "Disconnected", Connect is enabled and
    Disconnect is disabled.  After the opened callback the label reads
    "Connected" and the buttons are the other way round, provided a
    configuration exists; without one the display stays on "Disconnected". *)
Theorem callbacks_update_status_display (w w' : World disk) :
  (let ui := widget (on_websocket_disconnected w) in
   connection_status_label ui = ("Disconnected", "color: red;")
   ∧ connect_button ui = true ∧ disconnect_button ui = false)
  ∧ (on_websocket_connected w = Some w' →
     let ui := widget w' in
     connection_status_label ui =
       match plugin_config w with
       | Some _ => ("Connected", "color: green;")
       | None => ("Disconnected", "color: red;")
       end
     ∧ connect_button ui = negb (bool_decide (is_Some (plugin_config w)))
     ∧ disconnect_button ui = bool_decide (is_Some (plugin_config w))).
Proof.
  split.
  - cbn zeta. unfold on_websocket_disconnected.
    rewrite update_connection_status_widget. unfold is_connected. cbn.
    destruct (plugin_config w) as [c|] eqn:E; cbn; rewrite ?E; repeat split.
  - unfold on_websocket_connected. intros Hstep. cbn zeta.
    set (w1 := update_connection_status _) in Hstep.
    assert (H1 : connection_status_label (widget w1) =
                   match plugin_config w with
                   | Some _ => ("Connected", "color: green;")
                   | None => ("Disconnected", "color: red;")
                   end
                 ∧ connect_button (widget w1) = negb (bool_decide (is_Some (plugin_config w)))
                 ∧ disconnect_button (widget w1) = bool_decide (is_Some (plugin_config w))).
    { unfold w1. rewrite update_connection_status_widget. unfold is_connected. cbn.
      destruct (plugin_config w) as [c|] eqn:E; cbn; rewrite ?E; repeat split. }
    destruct (decide _); [injection Hstep as <-; exact H1 |].
    destruct (websocket (net w1)); [|discriminate].
    destruct (decide _); [|discriminate].
    injection Hstep as <-. exact H1.
Qed.

(** X9. Disconnect closes the socket and nothing more: afterwards no
    connection is live, but the socket object is kept, the global still
    points to it, and the connected flag and the whole widget are as before;
    they change only when the closed callback arrives. *)
Theorem disconnect_keeps_socket (w : World disk) (p : nat) :
  single_socket w →
  websocket (net w) = Some p →
  let w' := disconnect_from_server w in
  live_connections (net w') = ∅
  ∧ websocket (net w') = Some p
  ∧ dom (sockets (net w')) = dom (sockets (net w))
  ∧ socket_log (net w') = socket_log (net w) ++ [ws_close p]
  ∧ plugin_config w' = plugin_config w
  ∧ widget w' = widget w.
Proof.
  intros [Hdom _] Hp. cbn zeta. unfold disconnect_from_server. rewrite Hp. cbn.
  rewrite Hp in Hdom.
  split; [| split; [exact Hp | split; [apply dom_alter_L | repeat split]]].
  unfold live_connections. cbn. apply map_empty. intros q.
  apply map_lookup_filter_None.
  destruct (decide (q = p)) as [->|Hne].
  - right. intros s. rewrite lookup_alter_eq.
    destruct (sockets (net w) !! p); cbn; intros [= <-]; cbn; discriminate.
  - left. rewrite lookup_alter_ne by congruence.
    apply not_elem_of_dom. intros Hq. apply Hdom in Hq.
    apply elem_of_singleton in Hq. contradiction.
Qed.

(** X8. The opened callback uses the global socket without checking it.
    It fails exactly when there is a meeting ID to subscribe to and the
    global is null or points to no socket; with an empty meeting ID, or with
    a socket in place, it always completes. *)
Theorem opened_callback_safe (w : World disk) :
  on_websocket_connected w = None ↔
    meeting_id_edit (widget w) ≠ ""
    ∧ ∀ p, websocket (net w) = Some p → sockets (net w) !! p = None.
Proof.
  unfold on_websocket_connected.
  set (w1 := update_connection_status _).
  assert (Hnet : net w1 = net w).
  { unfold w1. rewrite (proj2 (update_connection_status_frame _)).
    cbn. destruct (plugin_config w); reflexivity. }
  assert (Hid : meeting_id_edit (widget w1) = meeting_id_edit (widget w)).
  { unfold w1. rewrite update_connection_status_widget.
    cbn. destruct (plugin_config w); reflexivity. }
  rewrite Hid, Hnet. destruct (decide (meeting_id_edit (widget w) = "")) as [He|Hne].
  - split; [discriminate | intros [Hn _]; contradiction].
  - destruct (websocket (net w)) as [p|].
    + destruct (decide (is_Some (sockets (net w) !! p))) as [Hs|Hno].
      * split; [discriminate |]. intros [_ Hp].
        rewrite (Hp p eq_refl) in Hs. destruct Hs as [? [=]].
      * split; [| reflexivity]. intros _. split; [exact Hne |].
        intros q [= <-]. apply eq_None_not_Some. exact Hno.
    + split; [| reflexivity]. intros _. split; [exact Hne | intros q [=]].
Qed.

(** X10. The health check is reported as successful exactly when the reply
    came without error and its body is a JSON object whose [status] member is
    the string "healthy".  A body that is not JSON, or has no such member, is
    reported as an unhealthy server, an error as a failed test; in every case
    by one log entry and nothing else. *)
Theorem reply_reporting (error : option string) (body : string) (w : World disk) :
  let status := object (fromJson body) !! "status" in
  (error = None → status = Some (JString "healthy") →
   on_reply_finished error body w = log_message "✓ Connection test successful!" w)
  ∧ (error = None → status ≠ Some (JString "healthy") →
     on_reply_finished error body w =
       log_message "⚠ Server responded but reported unhealthy status" w)
  ∧ (∀ errorString, error = Some errorString →
     on_reply_finished error body w =
       log_message (arg "✗ Connection test failed: %1" errorString) w).
Proof.
  cbn zeta. unfold on_reply_finished, value. repeat split.
  - intros -> ->. reflexivity.
  - intros -> Hne.
    destruct (object (fromJson body) !! "status") as [[]|]; cbn;
      repeat case_decide; try reflexivity; congruence.
  - intros e ->. reflexivity.
Qed.

Lemma load_config_from_files w :
  ∃ c, ∀ w1 : World disk, files w1 = files w →
    load_config w1 = set_plugin_config (Some c) w1.
Proof.
  destruct (config_open (config_create (obs_module_config_path "meetingmind.ini"))
              CONFIG_OPEN_EXISTING (files w)) as [result config] eqn:E.
  destruct (decide (result = CONFIG_SUCCESS)) as [Hok|Hno];
    eexists; intros w1 Hf; unfold load_config; rewrite Hf, E;
    (destruct (decide (result = CONFIG_SUCCESS)); [| try contradiction]);
    try contradiction; unfold set_connected; cbn; reflexivity.
Qed.

(** X11. Loading the configuration twice, as the module does at start (once
    on load and once when the dock is built), gives what loading once gives;
    and loading changes nothing but the configuration structure. *)
Theorem load_config_idempotent (w : World disk) :
  load_config (load_config w) = load_config w
  ∧ load_config w = set_plugin_config (plugin_config (load_config w)) w.
Proof.
  destruct (load_config_from_files w) as [c Hc].
  rewrite (Hc w eq_refl), (Hc (set_plugin_config (Some c) w) eq_refl).
  split; reflexivity.
Qed.

Lemma load_config_no_file w :
  (config_open (config_create (obs_module_config_path "meetingmind.ini"))
     CONFIG_OPEN_EXISTING (files w)).1 ≠ CONFIG_SUCCESS →
  plugin_config (load_config w) =
    Some {| server_url := Some "localhost"; server_port := 8080;
            api_key := Some ""; auto_scene_switching := true;
            auto_recording := true; audio_management := true;
            meeting_notifications := true; connection_timeout := 10;
            meeting_id := Some ""; connected := false |}.
Proof.
  unfold load_config. destruct (config_open _ _ _) as [result config]. cbn.
  intros Hne. destruct (decide _); [contradiction | reflexivity].
Qed.

(** X16. Destroying the dock closes and deletes the socket and clears the
    global: no socket object is left, and the configuration is untouched. *)
Theorem destructor_leaves_no_socket (w : World disk) :
  single_socket w →
  let w' := MeetingMindWidget_delete w in
  websocket (net w') = None
  ∧ sockets (net w') = ∅
  ∧ single_socket w'
  ∧ plugin_config w' = plugin_config w.
Proof.
  intros [Hdom Hp]. cbn zeta. unfold MeetingMindWidget_delete.
  destruct (websocket (net w)) as [p|] eqn:E; cbn.
  - assert (Hs : delete p (alter (λ s, {| ws_request := ws_request s; ws_live := false |})
                             p (sockets (net w))) = ∅).
    { rewrite delete_alter_eq. apply dom_empty_inv_L. rewrite dom_delete_L.
      apply elem_of_equiv_empty_L. intros q. rewrite elem_of_difference.
      intros [Hq Hne]. apply Hdom in Hq. contradiction. }
    split; [reflexivity |]. split; [exact Hs |]. split; [| reflexivity].
    unfold single_socket. cbn. rewrite Hs, dom_empty_L.
    split; [done | intros q [=]].
  - assert (Hs : sockets (net w) = ∅).
    { apply dom_empty_inv_L. apply elem_of_equiv_empty_L. intros q Hq.
      apply Hdom in Hq. apply not_elem_of_empty in Hq. contradiction. }
    split; [exact E |]. split; [exact Hs |]. split; [| reflexivity].
    unfold single_socket. rewrite E. split; [exact Hdom | intros q [=]].
Qed.

Lemma iter_line_down_unwrapped (doc : list string) (n : nat) :
  (∀ block, block ∈ doc → lineCount block = 1) →
  n < blockCount doc →
  Nat.iter n (line_down doc) (0, 0) = (n, 0).
Proof.
  intros Hone. induction n as [|n IH]; intros Hn; [reflexivity |].
  rewrite Nat.iter_succ, IH by lia. unfold line_down. cbn [fst snd].
  assert (Hline : lineCount (default "" (doc !! n)) = 1).
  { destruct (lookup_lt_is_Some_2 doc n) as [x Hx].
    - unfold blockCount in Hn. lia.
    - rewrite Hx. apply Hone. eapply list_elem_of_lookup_2, Hx. }
  rewrite Hline. destruct (decide (1 < 1)); [lia |].
  destruct (decide (S n < blockCount doc)); [reflexivity | lia].
Qed.

(** X18. As long as no block of the log takes more than one line of the
    view, [log_message] does cap the log: afterwards it holds the old blocks
    followed by the entry, with the surplus over 100 removed whole from the
    top, hence at most 100 blocks. *)
Theorem log_capped_without_wrapping (message : string) (w : World disk) :
  let doc := log_text (widget w) ++ text_blocks (arg2 "[%1] %2" (now w) message) in
  let doc' := log_text (widget (log_message message w)) in
  (∀ block, block ∈ doc → lineCount block = 1) →
  doc' = drop (length doc - 100) doc ∧ blockCount doc' ≤ 100.
Proof.
  cbn zeta. intros Hone. rewrite log_message_log_text. cbn zeta.
  set (doc := log_text (widget w) ++ text_blocks _) in *.
  assert (Heq : (if decide (100 < blockCount doc)
                 then drop_chars
                        (chars_before (Nat.iter (blockCount doc - 100) (line_down doc) (0, 0)).2
                           (default "" (doc !! (Nat.iter (blockCount doc - 100)
                                                  (line_down doc) (0, 0)).1)))
                        (default "" (doc !! (Nat.iter (blockCount doc - 100)
                                               (line_down doc) (0, 0)).1))
                      :: drop (S (Nat.iter (blockCount doc - 100) (line_down doc) (0, 0)).1) doc
                 else doc) = drop (length doc - 100) doc).
  { destruct (decide _) as [Hgt|Hno].
    - assert (Hlen : blockCount doc = length doc) by (unfold blockCount in *; lia).
      rewrite iter_line_down_unwrapped by (try assumption; lia). cbn [fst snd].
      rewrite Hlen.
      destruct (lookup_lt_is_Some_2 doc (length doc - 100)) as [x Hx]; [lia |].
      rewrite Hx. change (default "" (Some x)) with x.
      change (drop_chars (chars_before 0 x) x) with x. symmetry. apply drop_S, Hx.
    - unfold blockCount in Hno. replace (length doc - 100) with 0 by lia. reflexivity. }
  rewrite Heq. split; [reflexivity |].
  unfold blockCount. rewrite length_drop. lia.
Qed.

(** X17. Every entry point keeps to its part of the state.  Only an inbound
    message or the status timer reaches the host, only a change of the form
    writes the files, and only a click on Connect allocates a socket. *)
Theorem events_keep_to_their_part (e : plugin_event) (w w' : World disk) :
  step e w = Some w' →
  match e with
  | websocket_message _ | status_timeout => True
  | _ => host w' = host w
  end
  ∧ match e with
    | form_edited _ => True
    | _ => files w' = files w
    end
  ∧ match e with
    | connect_clicked => True
    | _ => next_socket (net w') = next_socket (net w)
    end.
Proof.
  destruct e; cbn [step]; intros Hstep; try (injection Hstep as <-).
  - unfold load_config. destruct (config_open _ _ _). repeat split.
  - unfold on_config_changed, save_config. cbn.
    destruct (plugin_config w); repeat split.
  - unfold on_connect_clicked, connect_to_server.
    destruct (plugin_config w); [| repeat split].
    destruct (websocket (socket_new _)); repeat split.
  - unfold on_disconnect_clicked, disconnect_from_server.
    destruct (websocket (net w)); repeat split.
  - repeat split.
  - unfold on_reply_finished. destruct error; [repeat split |].
    destruct (decide _); repeat split.
  - unfold on_websocket_connected in Hstep.
    set (w1 := update_connection_status _) in Hstep.
    assert (H1 : host w1 = host w ∧ files w1 = files w
                 ∧ next_socket (net w1) = next_socket (net w)).
    { unfold w1, update_connection_status. destruct (is_connected _); cbn;
        destruct (plugin_config w); repeat split. }
    destruct (decide _); [injection Hstep as <-; exact H1 |].
    destruct (websocket (net w1)); [|discriminate].
    destruct (decide _); [|discriminate].
    injection Hstep as <-. exact H1.
  - unfold on_websocket_disconnected, update_connection_status.
    destruct (is_connected _); cbn; destruct (plugin_config w); repeat split.
  - repeat split.
  - unfold on_status_update. destruct (obs_frontend_recording_active _). repeat split.
  - repeat split.
Qed.

End DockProperties.

(** ** Starting the dock *)

Section DockStart.
Context {config_t disk : Type} `{!ConfigFile config_t disk} `{!QtToolkit}.
Implicit Types w : World disk.

Lemma on_config_changed_eq w c :
  plugin_config w = Some c →
  ∃ d, on_config_changed w =
    set_files d (set_plugin_config (Some
      {| server_url := Some (c_str (server_url_edit (widget w)));
         server_port := server_port_spin (widget w);
         api_key := Some (c_str (api_key_edit (widget w)));
         meeting_id := Some (c_str (meeting_id_edit (widget w)));
         auto_scene_switching := auto_scene_switching_check (widget w);
         auto_recording := auto_recording_check (widget w);
         audio_management := audio_management_check (widget w);
         meeting_notifications := meeting_notifications_check (widget w);
         connection_timeout := connection_timeout c;
         connected := connected c |}) w).
Proof.
  intros Hc. unfold on_config_changed, save_config. rewrite Hc.
  cbn [plugin_config set_plugin_config]. eexists. reflexivity.
Qed.

Lemma dock_start_world (w : World disk) (c : meetingmind_config) :
  plugin_config (load_config (set_widget setup_ui w)) = Some c →
  default "localhost" (server_url c) ≠ "" →
  ∃ d,
    MeetingMindWidget_new w =
      update_connection_status
        (set_files d
           (set_plugin_config
              (Some {| server_url := Some (c_str (default "localhost" (server_url c)));
                       server_port := 8080; api_key := Some "";
                       auto_scene_switching := false; auto_recording := false;
                       audio_management := false; meeting_notifications := false;
                       connection_timeout := connection_timeout c;
                       meeting_id := Some ""; connected := false |})
              (set_widget
                 (apply_edit (edit_server_url (default "localhost" (server_url c)))
                    setup_ui)
                 (set_plugin_config (Some c) (set_widget setup_ui w))))).
Proof.
  intros Hc Hurl. unfold MeetingMindWidget_new.
  destruct (load_config_from_files (set_widget setup_ui w)) as [c0 Hload].
  assert (Hlost : connected c = false).
  { pose proof (Hload (set_widget setup_ui w) eq_refl) as Hl.
    rewrite Hl in Hc. injection Hc as ->.
    unfold load_config in Hl. destruct (config_open _ _ _).
    apply (f_equal plugin_config) in Hl. cbn in Hl. injection Hl as <-. reflexivity. }
  rewrite (Hload _ eq_refl) in *. cbn in Hc. injection Hc as ->.
  cbn [plugin_config set_plugin_config].
  unfold show_config at 8. cbn [plugin_config set_plugin_config].
  unfold set_from_code. cbn [edit_differs widget set_plugin_config set_widget setup_ui
                             server_url_edit].
  rewrite bool_decide_eq_true_2 by exact Hurl.
  edestruct on_config_changed_eq as [d ->]; [reflexivity |].
  cbn [widget set_widget apply_edit setup_ui server_url_edit server_port_spin
       api_key_edit meeting_id_edit auto_scene_switching_check auto_recording_check
       audio_management_check meeting_notifications_check]. rewrite Hlost.
  exists d.
  match goal with |- context [set_files d ?x] => set (w1 := set_files d x) end.
  match goal with w1 := set_files d (set_plugin_config (Some ?x) _) |- _ =>
    set (c1 := x) in * end.
  assert (Hw1 : plugin_config w1 = Some c1) by reflexivity.
  assert (Hsame : ∀ f, edit_differs (f c1) (widget w1) = false → show_config f w1 = w1).
  { intros f Hf. unfold show_config, set_from_code. rewrite Hw1, Hf. reflexivity. }
  repeat (rewrite Hsame by reflexivity). reflexivity.
Qed.

Lemma dock_start_config (w : World disk) (c : meetingmind_config) :
  plugin_config (load_config (set_widget setup_ui w)) = Some c →
  default "localhost" (server_url c) ≠ "" →
  let w' := MeetingMindWidget_new w in
  plugin_config w' =
    Some {| server_url := Some (c_str (default "localhost" (server_url c)));
            server_port := 8080; api_key := Some "";
            auto_scene_switching := false; auto_recording := false;
            audio_management := false; meeting_notifications := false;
            connection_timeout := connection_timeout c;
            meeting_id := Some ""; connected := false |}
  ∧ server_url_edit (widget w') = default "localhost" (server_url c)
  ∧ server_port_spin (widget w') = 8080%Z
  ∧ api_key_edit (widget w') = ""
  ∧ meeting_id_edit (widget w') = ""
  ∧ auto_scene_switching_check (widget w') = false
  ∧ auto_recording_check (widget w') = false
  ∧ audio_management_check (widget w') = false
  ∧ meeting_notifications_check (widget w') = false.
Proof.
  intros Hc Hurl. cbn zeta.
  destruct (dock_start_world w c Hc Hurl) as [d ->].
  unfold update_connection_status, is_connected.
  cbn [plugin_config set_files set_plugin_config connected]. repeat split.
Qed.

(** X14. Building the dock overwrites the configuration it has just loaded.
    Showing the server address in its field signals a change; the handler
    then copies the whole form, whose other fields are still as [setup_ui]
    left them, over the configuration and saves it.  So unless the loaded
    address is empty, only the address and the timeout survive: the port is
    8080, key and meeting ID are empty and all four features are off, in the
    configuration as in the form. *)
Theorem startup_overwrites_loaded_config (w : World disk) (c : meetingmind_config) :
  plugin_config (load_config (set_widget setup_ui w)) = Some c →
  default "localhost" (server_url c) ≠ "" →
  let w' := MeetingMindWidget_new w in
  plugin_config w' =
    Some {| server_url := Some (c_str (default "localhost" (server_url c)));
            server_port := 8080; api_key := Some "";
            auto_scene_switching := false; auto_recording := false;
            audio_management := false; meeting_notifications := false;
            connection_timeout := connection_timeout c;
            meeting_id := Some ""; connected := false |}
  ∧ server_url_edit (widget w') = default "localhost" (server_url c)
  ∧ server_port_spin (widget w') = 8080%Z
  ∧ api_key_edit (widget w') = ""
  ∧ meeting_id_edit (widget w') = ""
  ∧ auto_scene_switching_check (widget w') = false
  ∧ auto_recording_check (widget w') = false
  ∧ audio_management_check (widget w') = false
  ∧ meeting_notifications_check (widget w') = false.
Proof. apply dock_start_config. Qed.

(** X15. On a start without a readable configuration file the dock comes up
    with every feature switched off, although [load_config] had just set
    them all on; from then on, until the form is changed, no meeting event
    touches the host. *)
Theorem fresh_start_disables_features (w : World disk) (event_type : string)
    (data : QJsonObject) (h : obs_state) :
  (config_open (config_create (obs_module_config_path "meetingmind.ini"))
     CONFIG_OPEN_EXISTING (files w)).1 ≠ CONFIG_SUCCESS →
  let w' := MeetingMindWidget_new w in
  (∃ c, plugin_config w' = Some c
        ∧ auto_scene_switching c = false ∧ auto_recording c = false
        ∧ audio_management c = false ∧ meeting_notifications c = false)
  ∧ handle_meeting_event (plugin_config w') event_type data h = (tt, h).
Proof.
  intros Hfile. cbn zeta.
  pose proof (load_config_no_file (set_widget setup_ui w) Hfile) as Hc.
  destruct (dock_start_config w _ Hc) as [Hcfg _]; [discriminate |].
  cbn zeta in Hcfg. rewrite Hcfg. split.
  - eexists. repeat split.
  - unfold handle_meeting_event. cbn. repeat case_decide; reflexivity.
Qed.

End DockStart.

(** ** Form values across a restart of [load_config] *)

Section FormRoundTrip.
Context {config_t disk : Type} `{!ConfigFile config_t disk} `{!ConfigFileLaws}
        `{!QtToolkit}.




End FormRoundTrip.

(** ** Instances on the reference implementation *)

#[local] Existing Instance ini_config_file.
#[local] Existing Instance sample_toolkit.

(** C9 fails on the code.  [log_message] counts blocks but moves the cursor
    by lines of the view.  With a full log of 100 entries whose oldest entry
    takes two lines, one more entry makes 101 blocks; the cursor then moves
    one line down, which is still inside the oldest block, so only the first
    line of that entry is removed and the log is left with 101 blocks. *)
Theorem activity_log_exceeds_cap :
  let w := set_widget full_log_widget (sample_world "" studio) in
  length (log_text (widget w)) = 100
  ∧ (log_text (widget w) !! 0 ≫= λ block, Some (text_lines block)) =
      Some ["[08:59:00] ✗ Connection test failed: C"; "onnection refused"]
  ∧ blockCount (log_text (widget (log_message "hello" w))) = 101
  ∧ log_text (widget (log_message "hello" w)) !! 0 = Some "onnection refused".
Proof. cbn zeta. repeat split; vm_compute; reflexivity. Qed.

Lemma log_capped_without_wrapping_witness :
  let w := set_widget (set_log_text (replicate 100 "[08:59:30] x") (fresh_widget ""))
             (sample_world "" studio) in
  log_text (widget (log_message "hello" w)) =
    replicate 99 "[08:59:30] x" ++ ["[09:00:00] hello"].
Proof.
  cbn zeta.
  pose proof (log_capped_without_wrapping "hello"
                (set_widget (set_log_text (replicate 100 "[08:59:30] x")
                               (fresh_widget "")) (sample_world "" studio))) as H.
  cbn zeta in H. apply H.
  intros block Hin. apply elem_of_app in Hin as [Hin|Hin].
  - apply elem_of_replicate in Hin as [-> _]. vm_compute. reflexivity.
  - apply list_elem_of_singleton in Hin as ->. vm_compute. reflexivity.
Defined.

Lemma subscribe_on_open_witness :
  websocket (net (connecting_world "standup")) = Some 0
  ∧ is_Some (sockets (net (connecting_world "standup")) !! 0)
  ∧ ∃ w', on_websocket_connected (connecting_world "standup") = Some w'
      ∧ sent_messages (net w') =
          [toJson (JDocObject {[ "type" := JString "subscribe";
                                 "meeting_id" := JString "standup" ]})].
Proof.
  assert (H1 : websocket (net (connecting_world "standup")) = Some 0) by reflexivity.
  assert (H2 : is_Some (sockets (net (connecting_world "standup")) !! 0))
    by (eexists; reflexivity).
  split; [exact H1 |]. split; [exact H2 |].
  destruct (subscribe_on_open (connecting_world "standup") 0 H1 H2) as (w' & Hw & Hlog).
  exists w'. split; [exact Hw |].
  unfold sent_messages. rewrite Hlog. reflexivity.
Defined.

(** C4, as stated, fails.  With the meeting-ID field empty the opened
    callback runs to its end on an open socket and sends nothing. *)
Lemma no_subscribe_without_meeting_id :
  websocket (net (connecting_world "")) = Some 0
  ∧ ∃ w', on_websocket_connected (connecting_world "") = Some w'
      ∧ sent_messages (net w') = [].
Proof.
  split; [reflexivity |]. eexists. split; vm_compute; reflexivity.
Qed.


Lemma reconnect_replaces_connection_witness :
  run [config_loaded; connect_clicked] (sample_world "standup" studio)
    = Some (connecting_world "standup")
  ∧ size (live_connections (net (connecting_world "standup"))) ≤ 1
  ∧ ∃ request,
      socket_log (net (connect_to_server (connecting_world "standup"))) =
        socket_log (net (connecting_world "standup")) ++
        [ws_close 0; ws_delete 0; ws_new 1; ws_open 1 request]
      ∧ sockets (net (connect_to_server (connecting_world "standup"))) =
          {[ 1 := {| ws_request := Some request; ws_live := true |} ]}.
Proof.
  assert (Hrun : run [config_loaded; connect_clicked] (sample_world "standup" studio)
                 = Some (connecting_world "standup")) by reflexivity.
  destruct (reconnect_replaces_connection
              [config_loaded; connect_clicked] (sample_world "standup" studio)
              (connecting_world "standup") 0 eq_refl eq_refl Hrun) as [Hlive Hre].
  split; [exact Hrun |]. split; [exact Hlive |].
  destruct (Hre eq_refl) as (request & Hlog & _ & _ & Hsock & _).
  exists request. split; [exact Hlog | exact Hsock].
Defined.

Lemma connected_flag_tracks_callbacks_witness :
  ∃ w', run [connect_clicked; websocket_connected; websocket_message "x"]
            (load_config (sample_world "standup" studio)) = Some w'
    ∧ is_connected w' = true.
Proof.
  eexists. split.
  - vm_compute. reflexivity.
  - refine (proj1 (proj2 (connected_flag_tracks_callbacks
                            (sample_world "standup" studio)
                            [connect_clicked; websocket_connected; websocket_message "x"]
                            _) _)).
    vm_compute. reflexivity.
Defined.

Lemma message_decoding_defaults_witness :
  fromJson "not json" = JDocNull
  ∧ object (fromJson "not json") !! "type" = None
  ∧ object (fromJson "not json") !! "data" = None
  ∧ host (on_websocket_message "not json" (connecting_world "standup"))
    = host (connecting_world "standup").
Proof.
  assert (H1 : fromJson "not json" = JDocNull) by reflexivity.
  assert (H2 : object (fromJson "not json") !! "type" = None) by reflexivity.
  assert (H3 : object (fromJson "not json") !! "data" = None) by reflexivity.
  destruct (message_decoding_defaults "not json" (connecting_world "standup"))
    as (_ & Hnull & Htype & Hdata).
  pose proof (Hnull H1) as _. pose proof (Hdata H3) as _.
  split; [exact H1 |]. split; [exact H2 |]. split; [exact H3 |].
  exact (proj2 (Htype H2)).
Defined.

(** C8, as stated, fails.  A message with a [type] but no [data] member is
    dispatched like any other: here [meeting_started] without payload makes
    the dispatcher perform all three of its actions. *)
Lemma message_without_data_is_dispatched :
  let message := toJson (JDocObject {[ "type" := JString "meeting_started" ]}) in
  object (fromJson message) !! "data" = None
  ∧ attempted (host (connecting_world "standup")) = []
  ∧ attempted (host (on_websocket_message message (connecting_world "standup")))
    = [SwitchToScene SCENE_WELCOME; StartRecording; SetSourceMute AUDIO_MICROPHONE false].
Proof. cbn zeta. repeat split; vm_compute; reflexivity. Qed.

(** ** Further instances on the reference implementation *)

Lemma disabled_feature_untouched_witness :
  obs_exec (handle_meeting_event (Some all_off) "meeting_started" ∅) studio = studio.
Proof.
  exact (proj2 (proj2 (proj2 (disabled_feature_untouched all_off "meeting_started" ∅ studio)))
           eq_refl eq_refl eq_refl).
Defined.

Lemma meeting_recording_cycle_witness :
  auto_recording all_on = true
  ∧ obs_recording
      (obs_exec (handle_meeting_event (Some all_on) "meeting_ended" ∅)
         (obs_exec (handle_meeting_event (Some all_on) "meeting_started" ∅)
            bare_host_recording)) = false.
Proof.
  split; [reflexivity |].
  exact (proj2 (proj2 (meeting_recording_cycle all_on ∅ ∅ bare_host_recording eq_refl))).
Defined.

Lemma log_message_keeps_entry_witness :
  log_text (widget (log_message "hello" (sample_world "" studio))) = ["[09:00:00] hello"].
Proof.
  refine (proj1 (proj2 (log_message_keeps_entry "hello" (sample_world "" studio))) _).
  vm_compute. lia.
Defined.

Lemma callbacks_update_status_display_witness :
  ∃ w', on_websocket_connected (connecting_world "standup") = Some w'
    ∧ connection_status_label (widget w') = ("Connected", "color: green;")
    ∧ connect_button (widget w') = false.
Proof.
  eexists. split; [vm_compute; reflexivity |].
  refine (let H := proj2 (callbacks_update_status_display
                            (connecting_world "standup") _) _ in
          conj (proj1 H) (proj1 (proj2 H))).
  vm_compute. reflexivity.
Defined.

Lemma connecting_world_single_socket : single_socket (connecting_world "standup").
Proof.
  split.
  - apply (bool_decide_unpack _). vm_compute. reflexivity.
  - intros p [= <-]. split; [vm_compute; lia | discriminate].
Defined.

Lemma disconnect_keeps_socket_witness :
  live_connections (net (disconnect_from_server (connecting_world "standup"))) = ∅
  ∧ websocket (net (disconnect_from_server (connecting_world "standup"))) = Some 0.
Proof.
  pose proof (disconnect_keeps_socket (connecting_world "standup") 0
                connecting_world_single_socket eq_refl) as (H1 & H2 & _).
  exact (conj H1 H2).
Defined.

Lemma reply_reporting_witness :
  object (fromJson "not json") !! "status" ≠ Some (JString "healthy")
  ∧ on_reply_finished None "not json" (sample_world "" studio) =
      log_message "⚠ Server responded but reported unhealthy status" (sample_world "" studio).
Proof.
  assert (H : object (fromJson "not json") !! "status" ≠ Some (JString "healthy"))
    by discriminate.
  split; [exact H |].
  exact (proj1 (proj2 (reply_reporting None "not json" (sample_world "" studio))) eq_refl H).
Defined.


Lemma startup_overwrites_loaded_config_witness :
  plugin_config (MeetingMindWidget_new (sample_world "" studio)) = Some all_off.
Proof.
  refine (proj1 (startup_overwrites_loaded_config (sample_world "" studio)
                   {| server_url := Some "localhost"; server_port := 8080;
                      api_key := Some ""; auto_scene_switching := true;
                      auto_recording := true; audio_management := true;
                      meeting_notifications := true; connection_timeout := 10;
                      meeting_id := Some ""; connected := false |}
                   eq_refl _)).
  discriminate.
Defined.

Lemma fresh_start_disables_features_witness :
  handle_meeting_event (plugin_config (MeetingMindWidget_new (sample_world "" studio)))
    "meeting_started" ∅ studio = (tt, studio).
Proof.
  refine (proj2 (fresh_start_disables_features (sample_world "" studio)
                   "meeting_started" ∅ studio _)).
  discriminate.
Defined.

Lemma destructor_leaves_no_socket_witness :
  sockets (net (MeetingMindWidget_delete (connecting_world "standup"))) = ∅.
Proof.
  exact (proj1 (proj2 (destructor_leaves_no_socket (connecting_world "standup")
                         connecting_world_single_socket))).
Defined.

Lemma events_keep_to_their_part_witness :
  host (connect_to_server (load_config (sample_world "standup" studio))) =
  host (load_config (sample_world "standup" studio)).
Proof.
  exact (proj1 (events_keep_to_their_part connect_clicked
                  (load_config (sample_world "standup" studio)) _ eq_refl)).
Defined.
